(** * net/net-close.c: closing a socket of the NuttX network stack

    The file embeds the three functions of [net-close.c]:
    - [netclose_interrupt], the callback the uIP engine invokes at interrupt
      level while a close is pending,
    - [netclose_disconnect], the task-level routine that arms the callback
      and sleeps on a semaphore until the peer has closed,
    - [net_close], the public entry point.

    The C code works on memory shared between the task and the interrupt
    level (the connection record, the device record and a [tcp_close_s]
    living in the stack frame of [netclose_disconnect]).  The embedding
    therefore threads an explicit [world] through every operation; pointers
    are keys of finite maps, a dereference of a pointer that is not mapped
    is a [Fault], and the single suspension point ([sem_wait]) is explicit
    in the result type.

    Functions the file calls but does not define (the interrupt mask, the
    semaphores, the uIP and descriptor tables) appear as recorded calls;
    constants of other headers are variables of the section [NetClose]. *)

From Stdlib Require Import ZArith Lia List Bool.
From stdpp Require Import base option gmap.

Local Open Scope Z_scope.

(** ** Data *)

Abbreviation ptr := positive (only parsing).

(** Values a [data_event] function pointer can take.  The file installs its
    own [netclose_interrupt]; every other callback of the stack is foreign
    to this file. *)
Inductive handler : Type :=
  | netclose_interrupt_handler
  | foreign_handler (h : positive).

(** The part of [struct uip_driver_s] the file touches. *)
Record uip_driver_s : Type := mk_dev { d_len : Z }.

(** The part of [struct uip_conn] the file touches. *)
Record uip_conn : Type := mk_conn {
  ripaddr : Z;
  data_flags : Z;
  data_private : option ptr;
  data_event : option handler
}.

(** The part of [struct socket] the file reads. *)
Record socket : Type := mk_socket {
  s_crefs : Z;
  s_type : Z;
  s_flags : Z;
  s_conn : ptr
}.

(** [struct tcp_close_s].  A field is [None] until it has been written
    ([cl_psock]) or while the semaphore is not initialised ([cl_sem]); the
    semaphore itself is its count. *)
Record tcp_close_s : Type := mk_close {
  cl_psock : option Z;
  cl_sem : option Z
}.

(** Calls that leave the file, in the order they are issued. *)
Inductive event : Type :=
  | E_irqsave
  | E_irqrestore (saved : bool)
  | E_sem_init (sem : ptr) (value : Z)
  | E_sem_wait (sem : ptr)
  | E_sem_post (sem : ptr)
  | E_sem_destroy (sem : ptr)
  | E_netdev_txnotify (addr : Z)
  | E_uip_unlisten (conn : ptr)
  | E_uip_tcpfree (conn : ptr)
  | E_uip_udpfree (conn : ptr)
  | E_sockfd_release (sockfd : Z).

(** The memory and the machine state the three functions act on.
    [w_irq] is the interrupt mask of the running task ([true]: masked);
    [w_sockets] is the descriptor table, a pointer to an entry being
    represented by its descriptor; [w_close] holds the live
    [tcp_close_s] frames. *)
Record world : Type := mk_world {
  w_irq : bool;
  w_sockets : gmap Z socket;
  w_conns : gmap ptr uip_conn;
  w_devs : gmap ptr uip_driver_s;
  w_close : gmap ptr tcp_close_s;
  w_errno : Z;
  w_trace : list event
}.

(** Field updates. *)
Definition set_d_len (v : Z) (d : uip_driver_s) : uip_driver_s :=
  {| d_len := v |}.

Definition set_data_flags (v : Z) (c : uip_conn) : uip_conn :=
  {| ripaddr := ripaddr c; data_flags := v;
     data_private := data_private c; data_event := data_event c |}.

Definition set_data_private (v : option ptr) (c : uip_conn) : uip_conn :=
  {| ripaddr := ripaddr c; data_flags := data_flags c;
     data_private := v; data_event := data_event c |}.

Definition set_data_event (v : option handler) (c : uip_conn) : uip_conn :=
  {| ripaddr := ripaddr c; data_flags := data_flags c;
     data_private := data_private c; data_event := v |}.

Definition set_cl_psock (v : option Z) (s : tcp_close_s) : tcp_close_s :=
  {| cl_psock := v; cl_sem := cl_sem s |}.

Definition set_cl_sem (v : option Z) (s : tcp_close_s) : tcp_close_s :=
  {| cl_psock := cl_psock s; cl_sem := v |}.

Definition set_irq (b : bool) (w : world) : world :=
  {| w_irq := b; w_sockets := w_sockets w; w_conns := w_conns w;
     w_devs := w_devs w; w_close := w_close w; w_errno := w_errno w;
     w_trace := w_trace w |}.

Definition set_conns (m : gmap ptr uip_conn) (w : world) : world :=
  {| w_irq := w_irq w; w_sockets := w_sockets w; w_conns := m;
     w_devs := w_devs w; w_close := w_close w; w_errno := w_errno w;
     w_trace := w_trace w |}.

Definition set_devs (m : gmap ptr uip_driver_s) (w : world) : world :=
  {| w_irq := w_irq w; w_sockets := w_sockets w; w_conns := w_conns w;
     w_devs := m; w_close := w_close w; w_errno := w_errno w;
     w_trace := w_trace w |}.

Definition set_close (m : gmap ptr tcp_close_s) (w : world) : world :=
  {| w_irq := w_irq w; w_sockets := w_sockets w; w_conns := w_conns w;
     w_devs := w_devs w; w_close := m; w_errno := w_errno w;
     w_trace := w_trace w |}.

Definition set_errno (e : Z) (w : world) : world :=
  {| w_irq := w_irq w; w_sockets := w_sockets w; w_conns := w_conns w;
     w_devs := w_devs w; w_close := w_close w; w_errno := e;
     w_trace := w_trace w |}.

Definition log (e : event) (w : world) : world :=
  {| w_irq := w_irq w; w_sockets := w_sockets w; w_conns := w_conns w;
     w_devs := w_devs w; w_close := w_close w; w_errno := w_errno w;
     w_trace := w_trace w ++ [e] |}.

(** ** Computations

    A computation either returns, dereferences a pointer that is not
    mapped, or goes to sleep on a semaphore.  [Blocked sem w k]: the task
    sleeps on [sem] having left the world [w]; [k] is the rest of the task,
    entered by [wake] once a count of [sem] has been taken for it. *)
Inductive result (A : Type) : Type :=
  | Done (a : A) (w : world)
  | Fault
  | Blocked (sem : ptr) (w : world) (k : world -> result A).

Arguments Done {A} a w.
Arguments Fault {A}.
Arguments Blocked {A} sem w k.

Definition M (A : Type) : Type := world -> result A.

Definition ret {A} (a : A) : M A := fun w => Done a w.

Fixpoint bind_result {A B} (r : result A) (f : A -> M B) : result B :=
  match r with
  | Done a w => f a w
  | Fault => Fault
  | Blocked sem w k => Blocked sem w (fun w' => bind_result (k w') f)
  end.

Definition bind {A B} (m : M A) (f : A -> M B) : M B :=
  fun w => bind_result (m w) f.

Notation "'let*' x := m 'in' k" := (bind m (fun x => k))
  (at level 10, x name, m at level 100, k at level 200).
Notation "m ;;; k" := (bind m (fun _ => k))
  (at level 100, k at level 200, right associativity).

(** *** Memory *)

Definition load_socket (psock : Z) : M socket := fun w =>
  match w_sockets w !! psock with
  | Some s => Done s w
  | None => Fault
  end.

Definition load_conn (conn : ptr) : M uip_conn := fun w =>
  match w_conns w !! conn with
  | Some c => Done c w
  | None => Fault
  end.

Definition store_conn (conn : ptr) (f : uip_conn -> uip_conn) : M unit := fun w =>
  match w_conns w !! conn with
  | Some c => Done tt (set_conns (<[conn := f c]> (w_conns w)) w)
  | None => Fault
  end.

Definition store_dev (dev : ptr) (f : uip_driver_s -> uip_driver_s) : M unit := fun w =>
  match w_devs w !! dev with
  | Some d => Done tt (set_devs (<[dev := f d]> (w_devs w)) w)
  | None => Fault
  end.

Definition store_close (p : ptr) (f : tcp_close_s -> tcp_close_s) : M unit := fun w =>
  match w_close w !! p with
  | Some s => Done tt (set_close (<[p := f s]> (w_close w)) w)
  | None => Fault
  end.

(** A local [struct tcp_close_s] comes to life, uninitialised, at an address
    no live frame occupies, and dies when its function returns. *)
Definition push_frame : M ptr := fun w =>
  let p := fresh (dom (w_close w)) in
  Done p (set_close (<[p := mk_close None None]> (w_close w)) w).

Definition pop_frame (p : ptr) : M unit := fun w =>
  Done tt (set_close (delete p (w_close w)) w).

(** *** The kernel and the rest of the stack

    None of these functions is defined in [net-close.c].  Each call is
    recorded in [w_trace]; the interrupt mask and the semaphores, on which
    the control flow of the file depends, are modelled as state as well.
    What [uip_unlisten], [uip_tcpfree], [uip_udpfree], [netdev_txnotify]
    and [sockfd_release] do to their own tables is outside the model. *)

Definition extern (e : event) : M unit := fun w => Done tt (log e w).

(** Modelled from the spec: [irqsave] belongs to the architecture layer,
    not to [net-close.c].  It enters "a critical section that excludes
    interrupt/event delivery": it masks interrupts and returns the previous
    mask. *)
Definition irqsave : M bool := fun w =>
  Done (w_irq w) (log E_irqsave (set_irq true w)).

(** Modelled from the spec: [irqrestore], of the architecture layer as
    well, leaves the critical section by putting a saved mask back. *)
Definition irqrestore (flags : bool) : M unit := fun w =>
  Done tt (log (E_irqrestore flags) (set_irq flags w)).

(** Modelled from the spec: the semaphore functions belong to the kernel,
    not to [net-close.c].  They are the "binary wait/signal primitive"
    that supports "initialize, wait, signal exactly once, destroy", a
    signal before the wait not being lost: a count that [sem_init] sets,
    [sem_post] raises and [sem_wait] lowers. *)
Definition sem_init (sem : ptr) (value : Z) : M unit :=
  store_close sem (set_cl_sem (Some value)) ;;; extern (E_sem_init sem value).

Definition sem_destroy (sem : ptr) : M unit :=
  store_close sem (set_cl_sem None) ;;; extern (E_sem_destroy sem).

Definition sem_count (sem : ptr) (w : world) : option Z :=
  s ← w_close w !! sem; cl_sem s.

Definition sem_set (sem : ptr) (n : Z) (w : world) : world :=
  set_close (alter (set_cl_sem (Some n)) sem (w_close w)) w.

(** Modelled from the spec: [sem_post] of the kernel adds one to the
    count. *)
Definition sem_post (sem : ptr) : M unit := fun w =>
  match sem_count sem w with
  | Some n => Done tt (log (E_sem_post sem) (sem_set sem (n + 1) w))
  | None => Fault
  end.

(** Modelled from the spec: [sem_wait] of the kernel takes one from a
    positive count, and puts the caller to sleep otherwise. *)
Definition sem_wait (sem : ptr) : M unit := fun w =>
  match sem_count sem w with
  | Some n =>
      if 0 <? n then Done tt (log (E_sem_wait sem) (sem_set sem (n - 1) w))
      else Blocked sem (log (E_sem_wait sem) w) (fun w' => Done tt w')
  | None => Fault
  end.

(** Modelled from the spec: the scheduler of the kernel is not part of
    [net-close.c].  It wakes a sleeping task in the world [w'] the
    interrupt level has left: it takes one count of the semaphore for the
    task and enters the rest of the task; while the count is not positive
    the task stays asleep. *)
Definition wake {A} (r : result A) (w' : world) : result A :=
  match r with
  | Blocked sem _ k =>
      match sem_count sem w' with
      | Some n => if 0 <? n then k (sem_set sem (n - 1) w') else Blocked sem w' k
      | None => Fault
      end
  | _ => r
  end.

(** Return values are [uint8]. *)
Definition to_uint8 (z : Z) : Z := z mod 256.

(** Documented by the header of [net_close]: 0 on success, -1 on error. *)
Definition OK : Z := 0.
Definition ERROR : Z := -1.

(** ** A sample configuration

    The constants as uIP and the POSIX headers commonly define them, and
    three worlds: [idle], with a descriptor table of five sockets;
    [pending], in which the close of descriptor 3 sleeps; [posted], in
    which the peer has closed. *)
Module Sample.

Definition UIP_NEWDATA : Z := 2.
Definition UIP_CLOSE : Z := 16.
Definition UIP_ABORT : Z := 32.
Definition SOCK_STREAM : Z := 1.
Definition SOCK_DGRAM : Z := 2.
Definition EBADF : Z := 9.
Definition _SS_ISCONNECTED (s_flags : Z) : bool := negb (Z.land s_flags 64 =? 0).

Definition sockets : gmap Z socket :=
  list_to_map
    [ (3, mk_socket 1 SOCK_STREAM 64 7%positive);
      (4, mk_socket 1 SOCK_DGRAM 0 8%positive);
      (5, mk_socket 2 SOCK_STREAM 0 9%positive);
      (6, mk_socket 0 SOCK_STREAM 64 7%positive);
      (10, mk_socket 1 3 0 8%positive) ].

Definition idle : world :=
  {| w_irq := false;
     w_sockets := sockets;
     w_conns := list_to_map [ (7%positive, mk_conn 99 0 None None);
                              (8%positive, mk_conn 98 0 None None);
                              (9%positive, mk_conn 97 0 None None) ];
     w_devs := {[ 1%positive := mk_dev 40 ]};
     w_close := ∅;
     w_errno := 0;
     w_trace := [] |}.

Definition pending : world :=
  {| w_irq := true;
     w_sockets := sockets;
     w_conns := list_to_map [ (7%positive, mk_conn 99 50 (Some 1%positive)
                                             (Some netclose_interrupt_handler));
                              (8%positive, mk_conn 98 0 None None);
                              (9%positive, mk_conn 97 0 None None) ];
     w_devs := {[ 1%positive := mk_dev 40 ]};
     w_close := {[ 1%positive := mk_close (Some 3) (Some 0) ]};
     w_errno := 0;
     w_trace := [E_irqsave; E_sem_init 1 0; E_netdev_txnotify 99; E_sem_wait 1] |}.

Definition posted : world :=
  {| w_irq := true;
     w_sockets := sockets;
     w_conns := list_to_map [ (7%positive, mk_conn 99 0 None None);
                              (8%positive, mk_conn 98 0 None None);
                              (9%positive, mk_conn 97 0 None None) ];
     w_devs := {[ 1%positive := mk_dev 40 ]};
     w_close := {[ 1%positive := mk_close (Some 3) (Some 1) ]};
     w_errno := 0;
     w_trace := [E_irqsave; E_sem_init 1 0; E_netdev_txnotify 99; E_sem_wait 1;
                 E_sem_post 1] |}.

End Sample.

Section NetClose.

(** Constants and macros of headers that are not part of the file:
    the uIP event flags ([net/uip/uip.h]), the socket types
    ([sys/socket.h]), [EBADF] ([errno.h]), the connected test on
    [s_flags] ([net-internal.h]) and the two configuration switches. *)
Variables UIP_NEWDATA UIP_CLOSE UIP_ABORT : Z.
Variables SOCK_STREAM SOCK_DGRAM : Z.
Variable EBADF : Z.
Variable _SS_ISCONNECTED : Z -> bool.
Variables CONFIG_NET_TCP CONFIG_NET_UDP : bool.

(** ** [netclose_interrupt]

    The [nvdbg] calls only print and are left out. *)

Definition netclose_interrupt (dev conn : ptr) (flags : Z) : M Z :=
  let* c := load_conn conn in              (* pstate = conn->data_private *)
  match data_private c with
  | Some pstate =>                         (* if (pstate) *)
      if negb (Z.land flags (Z.lor UIP_CLOSE UIP_ABORT) =? 0) then
        store_conn conn (set_data_flags 0) ;;;
        store_conn conn (set_data_private None) ;;;
        store_conn conn (set_data_event None) ;;;
        sem_post pstate ;;;                (* sem_post(&pstate->cl_sem) *)
        ret flags
      else
        store_dev dev (set_d_len 0) ;;;    (* dev->d_len = 0 *)
        ret (to_uint8 (Z.lor (Z.land flags (Z.lnot UIP_NEWDATA)) UIP_CLOSE))
  | None => ret flags
  end.

(** ** [netclose_disconnect]

    [netdev_txnotify] is passed the address of the [ripaddr] field; the
    trace records the destination it finds there. *)

Definition netclose_disconnect (psock : Z) : M unit :=
  let* state := push_frame in              (* struct tcp_close_s state *)
  let* flags := irqsave in                 (* flags = irqsave() *)
  let* sock := load_socket psock in
  (if _SS_ISCONNECTED (s_flags sock) then
     store_close state (set_cl_psock (Some psock)) ;;;
     sem_init state 0 ;;;
     let conn := s_conn sock in
     store_conn conn (set_data_flags (Z.lor (Z.lor UIP_NEWDATA UIP_CLOSE) UIP_ABORT)) ;;;
     store_conn conn (set_data_private (Some state)) ;;;
     store_conn conn (set_data_event (Some netclose_interrupt_handler)) ;;;
     (let* c := load_conn conn in extern (E_netdev_txnotify (ripaddr c))) ;;;
     sem_wait state ;;;
     sem_destroy state ;;;
     store_conn conn (set_data_flags 0) ;;;
     store_conn conn (set_data_private None) ;;;
     store_conn conn (set_data_event None)
   else ret tt) ;;;
  irqrestore flags ;;;                     (* irqrestore(flags) *)
  pop_frame state.

(** ** [net_close] *)

(** Modelled from the spec: [sockfd_socket] is not defined in
    [net-close.c]; it is the descriptor resolution
    "resolve(handle) -> socket-reference | none" of the external
    interfaces, here the lookup of the descriptor in the table. *)
Definition sockfd_socket (sockfd : Z) : M (option Z) := fun w =>
  Done (match w_sockets w !! sockfd with Some _ => Some sockfd | None => None end) w.

(** The [errout] label: [*get_errno_ptr() = err; return ERROR]. *)
Definition errout (err : Z) : M Z := fun w => Done ERROR (set_errno err w).

(** The two cases of the [switch] exist only under their configuration
    switch; without it the socket type falls to [default]. *)
Definition net_close (sockfd : Z) : M Z :=
  let* psock := sockfd_socket sockfd in
  match psock with
  | None => errout EBADF                   (* !psock *)
  | Some psock =>
      let* sock := load_socket psock in
      if s_crefs sock <=? 0 then errout EBADF
      else if CONFIG_NET_TCP && (s_type sock =? SOCK_STREAM) then
        let conn := s_conn sock in
        extern (E_uip_unlisten conn) ;;;
        netclose_disconnect psock ;;;
        extern (E_uip_tcpfree conn) ;;;
        extern (E_sockfd_release sockfd) ;;;
        ret OK
      else if CONFIG_NET_UDP && (s_type sock =? SOCK_DGRAM) then
        extern (E_uip_udpfree (s_conn sock)) ;;;
        extern (E_sockfd_release sockfd) ;;;
        ret OK
      else errout EBADF
  end.

(** ** The interrupt level while a task sleeps *)

(** Modelled from the spec: the uIP engine that calls [data_event] is not
    part of [net-close.c].  The notifier is "invoked by the protocol engine
    whenever an event affecting this connection occurs": an event for
    [conn] runs the callback installed in the record, if it is the one of
    this file, and the world is what the callback leaves. *)
Definition uip_event (dev conn : ptr) (flags : Z) (w : world) : option world :=
  match w_conns w !! conn with
  | Some c =>
      match data_event c with
      | Some netclose_interrupt_handler =>
          match netclose_interrupt dev conn flags w with
          | Done _ w' => Some w'
          | _ => None
          end
      | _ => Some w
      end
  | None => None
  end.

(** A task runs until it sleeps; each event of the list is then delivered
    to the world it left, and the kernel tries to wake it. *)
Fixpoint run {A} (evs : list (ptr * ptr * Z)) (r : result A) : result A :=
  match evs with
  | [] => r
  | (dev, conn, flags) :: evs' =>
      match r with
      | Blocked sem w k =>
          match uip_event dev conn flags w with
          | Some w' => run evs' (wake r w')
          | None => Fault
          end
      | _ => r
      end
  end.

(** The event classes [netclose_disconnect] requests. *)
Definition full_event_set : Z := Z.lor (Z.lor UIP_NEWDATA UIP_CLOSE) UIP_ABORT.

(** ** Critical sections on traces

    [irqsave] enters a critical section and [irqrestore] leaves it;
    [in_critical held evs] tells whether one is held after the calls
    [evs], [held] telling whether one was held before them. *)
Fixpoint in_critical (held : bool) (evs : list event) : bool :=
  match evs with
  | [] => held
  | E_irqsave :: evs' => in_critical true evs'
  | E_irqrestore _ :: evs' => in_critical false evs'
  | _ :: evs' => in_critical held evs'
  end.

(** For a task started in [w] that has gone to sleep: is the critical
    section still held once the calls the task has issued, the [sem_wait]
    included, are done?  [None] if the task is not asleep. *)
Definition critical_at_wait {A} (w : world) (r : result A) : option bool :=
  match r with
  | Blocked _ w1 _ => Some (in_critical false (drop (length (w_trace w)) (w_trace w1)))
  | _ => None
  end.

(** The sentence "the wait never occurs while the critical section entered
    at the start is still held", for a run of [netclose_disconnect] started
    in [w]. *)
Definition wait_outside_critical_section (psock : Z) (w : world) : Prop :=
  critical_at_wait w (netclose_disconnect psock w) = Some false.

(** ** Sequences of events *)

(** The test of the notifier on its flags:
    [(flags & (UIP_CLOSE|UIP_ABORT)) != 0]. *)
Definition terminal (flags : Z) : bool :=
  negb (Z.land flags (Z.lor UIP_CLOSE UIP_ABORT) =? 0).

(** The notifier invoked once for each flags value of a list, in order, on
    the same device and connection; the results are collected. *)
Fixpoint netclose_interrupts (dev conn : ptr) (fl : list Z) : M (list Z) :=
  match fl with
  | [] => ret []
  | flags :: fl' =>
      let* r := netclose_interrupt dev conn flags in
      let* rs := netclose_interrupts dev conn fl' in
      ret (r :: rs)
  end.

(** The events the engine delivers for the flags values [fl] of one
    connection on one device, as [run] takes them. *)
Definition events_for (dev conn : ptr) (fl : list Z) : list (ptr * ptr * Z) :=
  map (fun flags => (dev, conn, flags)) fl.

(** Every wait context a connection record refers to is a live frame
    whose semaphore is initialised. *)
Definition contexts_live (w : world) : Prop :=
  forall q c p,
    w_conns w !! q = Some c -> data_private c = Some p ->
    is_Some (sem_count p w).

(** Proof steps shared by the lemmas on the three functions: unfold the
    operations, put the world in record form, rewrite the known lookups. *)
Ltac world_simpl :=
  unfold set_irq, set_conns, set_devs, set_close, set_errno, log,
    set_data_flags, set_data_private, set_data_event, set_d_len,
    set_cl_psock, set_cl_sem in *;
  simpl.

Ltac unfold_ops :=
  unfold sem_init, sem_destroy;
  unfold bind, ret, push_frame, pop_frame, irqsave, irqrestore, load_socket,
    load_conn, store_conn, store_dev, store_close, sem_post, sem_wait,
    sem_count, sem_set, extern.

Ltac exec_with tac := repeat (progress (world_simpl; tac)).

(** ** Basic facts about the memory operations *)

Lemma load_conn_Some conn w c :
  w_conns w !! conn = Some c -> load_conn conn w = Done c w.
Proof. intros H. unfold load_conn. by rewrite H. Qed.

Lemma store_conn_Some conn f w c :
  w_conns w !! conn = Some c ->
  store_conn conn f w = Done tt (set_conns (<[conn := f c]> (w_conns w)) w).
Proof. intros H. unfold store_conn. by rewrite H. Qed.

Lemma store_dev_Some dev f w d :
  w_devs w !! dev = Some d ->
  store_dev dev f w = Done tt (set_devs (<[dev := f d]> (w_devs w)) w).
Proof. intros H. unfold store_dev. by rewrite H. Qed.

Lemma sem_count_Some sem w n :
  sem_count sem w = Some n <->
  exists s, w_close w !! sem = Some s /\ cl_sem s = Some n.
Proof.
  unfold sem_count. destruct (w_close w !! sem) as [s|]; simpl.
  - split; [eauto | by intros (s' & [= <-] & ?)].
  - split; [done | by intros (? & ? & ?)].
Qed.

(** Every three-store sequence of the file writes the same record. *)
Lemma store_conn_thrice conn w c v1 v2 v3 :
  w_conns w !! conn = Some c ->
  (store_conn conn (set_data_flags v1) ;;;
   store_conn conn (set_data_private v2) ;;;
   store_conn conn (set_data_event v3)) w =
  Done tt (set_conns (<[conn := mk_conn (ripaddr c) v1 v2 v3]> (w_conns w)) w).
Proof.
  intros H. unfold bind. rewrite (store_conn_Some _ _ _ _ H). simpl.
  unfold store_conn at 1. simpl. rewrite lookup_insert_eq. simpl.
  unfold store_conn. simpl. rewrite lookup_insert_eq.
  by rewrite !insert_insert_eq.
Qed.

(** ** The event notifier *)

Lemma netclose_interrupt_no_context dev conn flags w c :
  w_conns w !! conn = Some c ->
  data_private c = None ->
  netclose_interrupt dev conn flags w = Done flags w.
Proof.
  intros Hc Hp. unfold netclose_interrupt, bind.
  rewrite (load_conn_Some _ _ _ Hc). simpl. by rewrite Hp.
Qed.

(** The notifier runs at interrupt level and never sleeps. *)
Lemma netclose_interrupt_never_blocks dev conn flags w sem w1 k :
  netclose_interrupt dev conn flags w <> Blocked sem w1 k.
Proof.
  unfold netclose_interrupt. unfold_ops. world_simpl.
  destruct (w_conns w !! conn) as [c|] eqn:Hc; [simpl|done].
  destruct (data_private c) as [pstate|]; [|done].
  destruct (Z.land flags (Z.lor UIP_CLOSE UIP_ABORT) =? 0); simpl.
  - by destruct (w_devs w !! dev).
  - exec_with ltac:(rewrite ?Hc, ?lookup_insert_eq).
    by destruct (w_close w !! pstate) as [[? []]|].
Qed.

(** C2.  When the connection record has no wait context attached
    ([data_private] is NULL), [netclose_interrupt] returns the flags it was
    given, whatever they are, and leaves the whole world (connection
    records, devices, semaphores, trace) as it found it. *)
Theorem C2_no_context_is_noop dev conn flags w c :
  w_conns w !! conn = Some c ->
  data_private c = None ->
  netclose_interrupt dev conn flags w = Done flags w.
Proof.
  intros Hc Hp. unfold netclose_interrupt, bind.
  rewrite (load_conn_Some _ _ _ Hc). simpl. by rewrite Hp.
Qed.


Lemma uint8_testbit_high x i : 0 <= x < 256 -> 8 <= i -> Z.testbit x i = false.
Proof.
  intros Hx Hi. rewrite <- (Z.mod_small x (2 ^ 8)) by (change (2 ^ 8) with 256; lia).
  apply Z.mod_pow2_bits_high. lia.
Qed.

Lemma to_uint8_mask flags newdata close :
  0 <= flags < 256 -> 0 <= close < 256 ->
  to_uint8 (Z.lor (Z.land flags (Z.lnot newdata)) close) =
  Z.lor (Z.land flags (Z.lnot newdata)) close.
Proof.
  intros Hf Hc. unfold to_uint8. change 256 with (2 ^ 8).
  apply Z.bits_inj'. intros i Hi.
  destruct (Z.lt_ge_cases i 8) as [Hlt|Hge].
  - by rewrite Z.mod_pow2_bits_low.
  - rewrite Z.mod_pow2_bits_high by lia.
    rewrite Z.lor_spec, Z.land_spec.
    by rewrite (uint8_testbit_high flags i), (uint8_testbit_high close i).
Qed.

(** C3.  With a wait context attached and a flags value that has the
    UIP_CLOSE or the UIP_ABORT bit, [netclose_interrupt] clears
    [data_flags], [data_private] and [data_event] of the record, posts the
    semaphore of the context once (one [sem_post] call, count up by one)
    and returns the flags as given.  In the world it leaves, every further
    invocation on the record, with any device and any flags, finds no
    context and changes nothing, so the context is not posted or read
    again. *)
Theorem C3_terminal_event_detaches_and_posts_once dev conn flags w c pstate n :
  w_conns w !! conn = Some c ->
  data_private c = Some pstate ->
  sem_count pstate w = Some n ->
  Z.land flags (Z.lor UIP_CLOSE UIP_ABORT) <> 0 ->
  let w' :=
    {| w_irq := w_irq w; w_sockets := w_sockets w;
       w_conns := <[conn := mk_conn (ripaddr c) 0 None None]> (w_conns w);
       w_devs := w_devs w;
       w_close := alter (set_cl_sem (Some (n + 1))) pstate (w_close w);
       w_errno := w_errno w;
       w_trace := w_trace w ++ [E_sem_post pstate] |} in
  netclose_interrupt dev conn flags w = Done flags w' /\
  sem_count pstate w' = Some (n + 1) /\
  forall dev' flags', netclose_interrupt dev' conn flags' w' = Done flags' w'.
Proof.
  intros Hc Hp Hn Hfl w'. split; [|split].
  - unfold netclose_interrupt. unfold bind at 1.
    rewrite (load_conn_Some _ _ _ Hc). simpl. rewrite Hp.
    apply Z.eqb_neq in Hfl. rewrite Hfl. simpl.
    pose proof (store_conn_thrice conn w c 0 None None Hc) as H3.
    unfold bind in *. 
    destruct (store_conn conn (set_data_flags 0) w) as [[] w1| |]; try done.
    simpl in *.
    destruct (store_conn conn (set_data_private None) w1) as [[] w2| |]; try done.
    simpl in *. rewrite H3. simpl.
    unfold sem_post. 
    change (sem_count pstate (set_conns _ w)) with (sem_count pstate w).
    by rewrite Hn.
  - apply sem_count_Some in Hn as (s & Hs & Hn).
    unfold sem_count, w'. simpl. rewrite lookup_alter_eq, Hs. done.
  - intros dev' flags'. eapply netclose_interrupt_no_context.
    + unfold w'. simpl. apply lookup_insert_eq.
    + done.
Qed.

(** C4.  With a wait context attached and a flags value that has neither
    the UIP_CLOSE nor the UIP_ABORT bit, [netclose_interrupt] sets the
    device's [d_len] to zero and returns
    [(flags & ~UIP_NEWDATA) | UIP_CLOSE]; it issues no call (no [sem_post])
    and leaves the semaphores, the connection records and the other
    devices as they were.  The world it leaves is given in full; read back
    from it, the device passed has [d_len] zero. *)
Theorem C4_non_terminal_event_requests_close dev conn flags w c pstate d :
  w_conns w !! conn = Some c ->
  data_private c = Some pstate ->
  w_devs w !! dev = Some d ->
  Z.land flags (Z.lor UIP_CLOSE UIP_ABORT) = 0 ->
  0 <= flags < 256 ->
  0 <= UIP_CLOSE < 256 ->
  let w' :=
    {| w_irq := w_irq w; w_sockets := w_sockets w; w_conns := w_conns w;
       w_devs := <[dev := {| d_len := 0 |}]> (w_devs w);
       w_close := w_close w; w_errno := w_errno w; w_trace := w_trace w |} in
  netclose_interrupt dev conn flags w =
    Done (Z.lor (Z.land flags (Z.lnot UIP_NEWDATA)) UIP_CLOSE) w' /\
  d_len <$> w_devs w' !! dev = Some 0 /\
  (forall q, q <> dev -> w_devs w' !! q = w_devs w !! q) /\
  w_trace w' = w_trace w /\
  w_close w' = w_close w /\
  w_conns w' = w_conns w.
Proof.
  intros Hc Hp Hd Hfl Hrange Hclose w'. split; [|split; [|split; [|done]]].
  - unfold netclose_interrupt. unfold bind at 1.
    rewrite (load_conn_Some _ _ _ Hc). simpl. rewrite Hp.
    apply Z.eqb_eq in Hfl. rewrite Hfl. simpl.
    unfold bind. rewrite (store_dev_Some _ _ _ _ Hd). simpl.
    unfold ret. by rewrite to_uint8_mask.
  - unfold w'. simpl. by rewrite lookup_insert_eq.
  - intros q Hq. unfold w'. simpl. by rewrite lookup_insert_ne.
Qed.

(** C10.  Frame of [netclose_interrupt].  Whenever it returns: the
    connection records differ from before only if a wait context was
    attached and the flags had UIP_CLOSE or UIP_ABORT, and then only in
    [data_flags], [data_private] and [data_event] of the record passed;
    the devices differ only if a wait context was attached and the flags
    had neither bit, and then only in the device passed; interrupt mask,
    descriptor table and errno are never touched. *)
Theorem C10_notifier_frame dev conn flags w r w' :
  netclose_interrupt dev conn flags w = Done r w' ->
  exists c,
    w_conns w !! conn = Some c /\
    (data_private c = None \/ Z.land flags (Z.lor UIP_CLOSE UIP_ABORT) = 0 ->
       w_conns w' = w_conns w) /\
    (data_private c = None \/ Z.land flags (Z.lor UIP_CLOSE UIP_ABORT) <> 0 ->
       w_devs w' = w_devs w) /\
    (forall q, q <> conn -> w_conns w' !! q = w_conns w !! q) /\
    (exists c', w_conns w' !! conn = Some c' /\ ripaddr c' = ripaddr c) /\
    (forall q, q <> dev -> w_devs w' !! q = w_devs w !! q) /\
    w_irq w' = w_irq w /\ w_sockets w' = w_sockets w /\ w_errno w' = w_errno w.
Proof.
  intros Hrun. unfold netclose_interrupt in Hrun. unfold bind at 1 in Hrun.
  destruct (w_conns w !! conn) as [c|] eqn:Hc;
    [rewrite (load_conn_Some _ _ _ Hc) in Hrun
    |unfold load_conn in Hrun; by rewrite Hc in Hrun].
  exists c. split; [done|]. simpl in Hrun.
  destruct (data_private c) as [pstate|] eqn:Hp.
  - destruct (Z.land flags (Z.lor UIP_CLOSE UIP_ABORT) =? 0) eqn:Hfl; simpl in Hrun.
    + apply Z.eqb_eq in Hfl. unfold bind in Hrun.
      destruct (w_devs w !! dev) as [d|] eqn:Hd;
        [rewrite (store_dev_Some _ _ _ _ Hd) in Hrun
        |unfold store_dev in Hrun; by rewrite Hd in Hrun].
      simpl in Hrun. injection Hrun as _ <-. simpl.
      repeat split; try done.
      * intros [?|?]; done.
      * eauto.
      * intros q Hq. by rewrite lookup_insert_ne.
    + apply Z.eqb_neq in Hfl.
      pose proof (store_conn_thrice conn w c 0 None None Hc) as H3.
      unfold bind in *.
      destruct (store_conn conn (set_data_flags 0) w) as [[] w1| |]; try done.
      simpl in *.
      destruct (store_conn conn (set_data_private None) w1) as [[] w2| |]; try done.
      simpl in *. rewrite H3 in Hrun. simpl in Hrun.
      unfold sem_post in Hrun.
      destruct (sem_count pstate _); [|done].
      injection Hrun as _ <-. simpl.
      repeat split; try done.
      * intros [?|?]; done.
      * intros q Hq. by rewrite lookup_insert_ne.
      * rewrite lookup_insert_eq. eauto.
  - injection Hrun as _ <-. repeat split; try done. eauto.
Qed.


(** ** The disconnect coordinator *)

Lemma fresh_frame_unmapped w : w_close w !! fresh (dom (w_close w)) = None.
Proof. apply not_elem_of_dom_1, is_fresh. Qed.

Lemma netclose_disconnect_connected psock w s c :
  w_sockets w !! psock = Some s ->
  _SS_ISCONNECTED (s_flags s) = true ->
  w_conns w !! s_conn s = Some c ->
  let state := fresh (dom (w_close w)) in
  let w1 :=
    {| w_irq := true; w_sockets := w_sockets w;
       w_conns := <[s_conn s := mk_conn (ripaddr c) full_event_set (Some state)
                                  (Some netclose_interrupt_handler)]> (w_conns w);
       w_devs := w_devs w;
       w_close := <[state := mk_close (Some psock) (Some 0)]> (w_close w);
       w_errno := w_errno w;
       w_trace := w_trace w ++ [E_irqsave; E_sem_init state 0;
                                E_netdev_txnotify (ripaddr c); E_sem_wait state] |} in
  exists k,
    netclose_disconnect psock w = Blocked state w1 k /\
    forall w2 c2 s2,
      w_conns w2 !! s_conn s = Some c2 ->
      w_close w2 !! state = Some s2 ->
      k w2 =
      Done tt
        {| w_irq := w_irq w; w_sockets := w_sockets w2;
           w_conns := <[s_conn s := mk_conn (ripaddr c2) 0 None None]> (w_conns w2);
           w_devs := w_devs w2;
           w_close := delete state (w_close w2);
           w_errno := w_errno w2;
           w_trace := w_trace w2 ++ [E_sem_destroy state; E_irqrestore (w_irq w)] |}.
Proof.
  intros Hs Hconn Hc state w1. subst state w1. eexists. split.
  - unfold netclose_disconnect. unfold_ops.
    exec_with ltac:(rewrite ?Hs, ?Hconn, ?Hc, ?lookup_insert_eq).
    f_equal. unfold full_event_set.
    rewrite !insert_insert_eq, <- !app_assoc. reflexivity.
  - intros w2 c2 s2 Hc2 Hs2. unfold_ops.
    exec_with ltac:(rewrite ?Hs2, ?Hc2, ?lookup_insert_eq).
    rewrite !insert_insert_eq, delete_insert_eq, <- !app_assoc. reflexivity.
Qed.


Lemma netclose_disconnect_woken psock w s c w2 c2 n :
  w_sockets w !! psock = Some s ->
  _SS_ISCONNECTED (s_flags s) = true ->
  w_conns w !! s_conn s = Some c ->
  let state := fresh (dom (w_close w)) in
  w_conns w2 !! s_conn s = Some c2 ->
  sem_count state w2 = Some n ->
  0 < n ->
  wake (netclose_disconnect psock w) w2 =
  Done tt
    {| w_irq := w_irq w; w_sockets := w_sockets w2;
       w_conns := <[s_conn s := mk_conn (ripaddr c2) 0 None None]> (w_conns w2);
       w_devs := w_devs w2;
       w_close := delete state (w_close w2);
       w_errno := w_errno w2;
       w_trace := w_trace w2 ++ [E_sem_destroy state; E_irqrestore (w_irq w)] |}.
Proof.
  intros Hs Hconn Hc state Hc2 Hn Hpos.
  destruct (netclose_disconnect_connected psock w s c Hs Hconn Hc) as (k & -> & Hk).
  fold state in Hk |- *. unfold wake. rewrite Hn.
  apply Z.ltb_lt in Hpos. rewrite Hpos.
  apply sem_count_Some in Hn as (s2 & Hs2 & _).
  rewrite (Hk (sem_set state (n - 1) w2) c2 (set_cl_sem (Some (n - 1)) s2)).
  - unfold sem_set. world_simpl. by rewrite delete_alter_eq.
  - done.
  - unfold sem_set. world_simpl. by rewrite lookup_alter_eq, Hs2.
Qed.

Lemma netclose_disconnect_stays_asleep psock w s c w2 n :
  w_sockets w !! psock = Some s ->
  _SS_ISCONNECTED (s_flags s) = true ->
  w_conns w !! s_conn s = Some c ->
  sem_count (fresh (dom (w_close w))) w2 = Some n ->
  n <= 0 ->
  exists k, wake (netclose_disconnect psock w) w2 =
            Blocked (fresh (dom (w_close w))) w2 k.
Proof.
  intros Hs Hconn Hc Hn Hle.
  destruct (netclose_disconnect_connected psock w s c Hs Hconn Hc) as (k & -> & _).
  exists k. unfold wake. rewrite Hn.
  by replace (0 <? n) with false by (symmetry; apply Z.ltb_ge; lia).
Qed.


Lemma netclose_disconnect_not_connected psock w s :
  w_sockets w !! psock = Some s ->
  _SS_ISCONNECTED (s_flags s) = false ->
  netclose_disconnect psock w =
  Done tt
    {| w_irq := w_irq w; w_sockets := w_sockets w; w_conns := w_conns w;
       w_devs := w_devs w; w_close := w_close w; w_errno := w_errno w;
       w_trace := w_trace w ++ [E_irqsave; E_irqrestore (w_irq w)] |}.
Proof.
  intros Hs Hconn. unfold netclose_disconnect. unfold_ops.
  exec_with ltac:(rewrite ?Hs, ?Hconn).
  by rewrite delete_insert_id, <- app_assoc by apply fresh_frame_unmapped.
Qed.

(** C7.  On a socket that is not connected [netclose_disconnect] returns
    at once, and the world it leaves is the one it found but for the two
    calls [irqsave] and [irqrestore] in the trace: no wait context, no
    callback, no event flags, no [netdev_txnotify], no [sem_wait]. *)
Theorem C7_not_connected_is_noop psock w s :
  w_sockets w !! psock = Some s ->
  _SS_ISCONNECTED (s_flags s) = false ->
  netclose_disconnect psock w =
  Done tt
    {| w_irq := w_irq w; w_sockets := w_sockets w; w_conns := w_conns w;
       w_devs := w_devs w; w_close := w_close w; w_errno := w_errno w;
       w_trace := w_trace w ++ [E_irqsave; E_irqrestore (w_irq w)] |}.
Proof. apply netclose_disconnect_not_connected. Qed.

(** C8.  On a connected socket [netclose_disconnect] sets up a
    [tcp_close_s] that refers to the socket and holds a semaphore of count
    zero, attaches it to the connection record, requests
    [UIP_NEWDATA|UIP_CLOSE|UIP_ABORT], installs [netclose_interrupt] as
    [data_event], calls [netdev_txnotify] and goes to sleep on the
    semaphore, where it stays as long as the count is not positive.  When
    it is woken and returns, [data_flags] of the record is zero,
    [data_private] and [data_event] are NULL, and the context is gone. *)
Theorem C8_connected_arms_blocks_and_clears psock w s c :
  w_sockets w !! psock = Some s ->
  _SS_ISCONNECTED (s_flags s) = true ->
  w_conns w !! s_conn s = Some c ->
  exists state w1 k,
    netclose_disconnect psock w = Blocked state w1 k /\
    w_close w !! state = None /\
    w_close w1 !! state = Some (mk_close (Some psock) (Some 0)) /\
    w_conns w1 !! s_conn s =
      Some (mk_conn (ripaddr c) (Z.lor (Z.lor UIP_NEWDATA UIP_CLOSE) UIP_ABORT)
              (Some state) (Some netclose_interrupt_handler)) /\
    w_trace w1 = w_trace w ++ [E_irqsave; E_sem_init state 0;
                               E_netdev_txnotify (ripaddr c); E_sem_wait state] /\
    (forall w2 n, sem_count state w2 = Some n -> n <= 0 ->
       exists k', wake (netclose_disconnect psock w) w2 = Blocked state w2 k') /\
    forall w2 c2 n,
      w_conns w2 !! s_conn s = Some c2 ->
      sem_count state w2 = Some n ->
      0 < n ->
      exists w3,
        wake (netclose_disconnect psock w) w2 = Done tt w3 /\
        w_conns w3 !! s_conn s = Some (mk_conn (ripaddr c2) 0 None None) /\
        w_close w3 !! state = None.
Proof.
  intros Hs Hconn Hc.
  destruct (netclose_disconnect_connected psock w s c Hs Hconn Hc) as (k & Hrun & _).
  eexists _, _, k. split; [exact Hrun|]. simpl.
  split; [apply fresh_frame_unmapped|].
  split; [apply lookup_insert_eq|].
  split; [apply lookup_insert_eq|].
  split; [done|]. split.
  - intros w2 n Hn Hle.
    by apply (netclose_disconnect_stays_asleep psock w s c w2 n).
  - intros w2 c2 n Hc2 Hn Hpos. eexists. split.
    + by apply (netclose_disconnect_woken psock w s c w2 c2 n).
    + simpl. split; [apply lookup_insert_eq | apply lookup_delete_eq].
Qed.


(** ** The close entry point *)

Lemma net_close_stream sockfd w s :
  w_sockets w !! sockfd = Some s ->
  0 < s_crefs s ->
  CONFIG_NET_TCP = true ->
  s_type s = SOCK_STREAM ->
  net_close sockfd w =
  (extern (E_uip_unlisten (s_conn s)) ;;;
   netclose_disconnect sockfd ;;;
   extern (E_uip_tcpfree (s_conn s)) ;;;
   extern (E_sockfd_release sockfd) ;;;
   ret OK) w.
Proof.
  intros Hs Hrefs Htcp Htype. unfold net_close, sockfd_socket.
  unfold bind at 1. simpl. rewrite Hs.
  unfold bind at 1, load_socket. rewrite Hs. simpl.
  replace (s_crefs s <=? 0) with false by (symmetry; apply Z.leb_gt; lia).
  by rewrite Htcp, Htype, Z.eqb_refl.
Qed.

(** C5.  When the descriptor is not in the table, or its entry has a
    reference count that is zero or negative, or its type is neither
    SOCK_STREAM nor SOCK_DGRAM, [net_close] returns ERROR with errno set
    to EBADF and does nothing else: no call leaves the file (the trace is
    as before) and connection records, devices and semaphores are as
    before. *)
Theorem C5_invalid_descriptor_fails_with_EBADF sockfd w :
  (w_sockets w !! sockfd = None \/
   exists s, w_sockets w !! sockfd = Some s /\
     (s_crefs s <= 0 \/ (s_type s <> SOCK_STREAM /\ s_type s <> SOCK_DGRAM))) ->
  net_close sockfd w =
  Done ERROR
    {| w_irq := w_irq w; w_sockets := w_sockets w; w_conns := w_conns w;
       w_devs := w_devs w; w_close := w_close w; w_errno := EBADF;
       w_trace := w_trace w |}.
Proof.
  intros Hbad. unfold net_close, sockfd_socket. unfold bind at 1. simpl.
  destruct Hbad as [Hnone | (s & Hs & Hbad)].
  - by rewrite Hnone.
  - rewrite Hs. unfold bind, load_socket. rewrite Hs. simpl.
    destruct Hbad as [Hrefs | [Hst Hdg]].
    + by replace (s_crefs s <=? 0) with true by (symmetry; apply Z.leb_le; lia).
    + apply Z.eqb_neq in Hst, Hdg. rewrite Hst, Hdg, !andb_false_r.
      by destruct (s_crefs s <=? 0).
Qed.

(** C6.  On a valid SOCK_DGRAM socket [net_close] calls [uip_udpfree] on
    the connection record, then [sockfd_release] on the descriptor, and
    returns OK.  These two are its only calls: [netclose_disconnect] is
    not run, no wait context comes to life, nothing is written to a
    connection record, and the task never sleeps. *)
Theorem C6_datagram_close_frees_directly sockfd w s :
  w_sockets w !! sockfd = Some s ->
  0 < s_crefs s ->
  s_type s = SOCK_DGRAM ->
  SOCK_STREAM <> SOCK_DGRAM ->
  CONFIG_NET_UDP = true ->
  net_close sockfd w =
  Done OK
    {| w_irq := w_irq w; w_sockets := w_sockets w; w_conns := w_conns w;
       w_devs := w_devs w; w_close := w_close w; w_errno := w_errno w;
       w_trace := w_trace w ++ [E_uip_udpfree (s_conn s); E_sockfd_release sockfd] |}.
Proof.
  intros Hs Hrefs Htype Hne Hudp. unfold net_close, sockfd_socket.
  unfold bind at 1. simpl. rewrite Hs.
  unfold bind at 1, load_socket. rewrite Hs. simpl.
  replace (s_crefs s <=? 0) with false by (symmetry; apply Z.leb_gt; lia).
  rewrite Htype, Hudp, Z.eqb_refl.
  replace (SOCK_DGRAM =? SOCK_STREAM) with false
    by (symmetry; apply Z.eqb_neq; congruence).
  rewrite andb_false_r. unfold_ops. world_simpl.
  by rewrite <- app_assoc.
Qed.

(** C9.  On a valid SOCK_STREAM socket [net_close] calls [uip_unlisten],
    then runs [netclose_disconnect] to its end, then calls [uip_tcpfree],
    then [sockfd_release], and returns OK.  If the socket is connected the
    task sleeps inside [netclose_disconnect], after [uip_unlisten] and
    before any of the later calls, and the later calls follow, in this
    order, once it is woken; if it is not connected the five calls follow
    one another at once. *)
Theorem C9_stream_close_order sockfd w s c :
  w_sockets w !! sockfd = Some s ->
  0 < s_crefs s ->
  s_type s = SOCK_STREAM ->
  CONFIG_NET_TCP = true ->
  w_conns w !! s_conn s = Some c ->
  let conn := s_conn s in
  if _SS_ISCONNECTED (s_flags s) then
    exists state w1 k,
      net_close sockfd w = Blocked state w1 k /\
      w_trace w1 = w_trace w ++ [E_uip_unlisten conn; E_irqsave; E_sem_init state 0;
                                 E_netdev_txnotify (ripaddr c); E_sem_wait state] /\
      forall w2 c2 n,
        w_conns w2 !! conn = Some c2 ->
        sem_count state w2 = Some n ->
        0 < n ->
        exists w3,
          wake (net_close sockfd w) w2 = Done OK w3 /\
          w_trace w3 = w_trace w2 ++ [E_sem_destroy state; E_irqrestore (w_irq w);
                                      E_uip_tcpfree conn; E_sockfd_release sockfd]
  else
    exists w',
      net_close sockfd w = Done OK w' /\
      w_trace w' = w_trace w ++ [E_uip_unlisten conn; E_irqsave; E_irqrestore (w_irq w);
                                 E_uip_tcpfree conn; E_sockfd_release sockfd].
Proof.
  intros Hs Hrefs Htype Htcp Hc conn.
  pose proof (net_close_stream sockfd w s Hs Hrefs Htcp Htype) as Hnc.
  fold conn in Hnc. unfold bind at 1, extern at 1 in Hnc.
  set (w0 := log (E_uip_unlisten conn) w) in Hnc.
  assert (Hs0 : w_sockets w0 !! sockfd = Some s) by done.
  assert (Hc0 : w_conns w0 !! s_conn s = Some c) by done.
  simpl in Hnc. unfold bind at 1 in Hnc.
  destruct (_SS_ISCONNECTED (s_flags s)) eqn:Hconn.
  - destruct (netclose_disconnect_connected sockfd w0 s c Hs0 Hconn Hc0)
      as (k & Hrun & Hk).
    rewrite Hrun in Hnc. simpl in Hnc. rewrite Hnc.
    eexists _, _, _. split; [reflexivity|]. simpl.
    split; [by rewrite <- app_assoc|].
    intros w2 c2 n Hc2 Hn Hpos. unfold wake. rewrite Hn.
    apply Z.ltb_lt in Hpos. rewrite Hpos.
    apply sem_count_Some in Hn as (s2 & Hs2 & _).
    rewrite (Hk (sem_set (fresh (dom (w_close w))) (n - 1) w2) c2
               (set_cl_sem (Some (n - 1)) s2)).
    + unfold_ops. world_simpl. eexists. split; [reflexivity|]. simpl.
      by rewrite <- !app_assoc.
    + done.
    + unfold sem_set. world_simpl. by rewrite lookup_alter_eq, Hs2.
  - rewrite (netclose_disconnect_not_connected sockfd w0 s Hs0 Hconn) in Hnc.
    rewrite Hnc. unfold_ops. world_simpl. eexists. split; [reflexivity|]. simpl.
    by rewrite <- !app_assoc.
Qed.


(** ** Further properties of the event notifier *)

Lemma netclose_interrupt_terminal dev conn flags w c pstate n :
  w_conns w !! conn = Some c ->
  data_private c = Some pstate ->
  sem_count pstate w = Some n ->
  terminal flags = true ->
  netclose_interrupt dev conn flags w =
  Done flags
    {| w_irq := w_irq w; w_sockets := w_sockets w;
       w_conns := <[conn := mk_conn (ripaddr c) 0 None None]> (w_conns w);
       w_devs := w_devs w;
       w_close := alter (set_cl_sem (Some (n + 1))) pstate (w_close w);
       w_errno := w_errno w;
       w_trace := w_trace w ++ [E_sem_post pstate] |}.
Proof.
  intros Hc Hp Hn Hfl. unfold terminal in Hfl.
  unfold netclose_interrupt. unfold bind at 1.
  rewrite (load_conn_Some _ _ _ Hc). simpl. rewrite Hp, Hfl.
  unfold sem_count in Hn. unfold_ops.
  exec_with ltac:(rewrite ?Hc, ?Hn, ?lookup_insert_eq).
  by rewrite !insert_insert_eq.
Qed.

Lemma netclose_interrupt_non_terminal dev conn flags w c pstate d :
  w_conns w !! conn = Some c ->
  data_private c = Some pstate ->
  w_devs w !! dev = Some d ->
  terminal flags = false ->
  netclose_interrupt dev conn flags w =
  Done (to_uint8 (Z.lor (Z.land flags (Z.lnot UIP_NEWDATA)) UIP_CLOSE))
    (set_devs (<[dev := mk_dev 0]> (w_devs w)) w).
Proof.
  intros Hc Hp Hd Hfl. unfold terminal in Hfl.
  unfold netclose_interrupt. unfold bind at 1.
  rewrite (load_conn_Some _ _ _ Hc). simpl. rewrite Hp, Hfl.
  unfold bind. by rewrite (store_dev_Some _ _ _ _ Hd).
Qed.

(** X1.  Whatever the branch, a [netclose_interrupt] that is given a
    [uint8] flags value returns a [uint8] value. *)
Theorem X1_notifier_returns_uint8 dev conn flags w r w' :
  0 <= flags < 256 ->
  netclose_interrupt dev conn flags w = Done r w' ->
  0 <= r < 256.
Proof.
  intros Hrange. unfold netclose_interrupt. unfold_ops. world_simpl.
  destruct (w_conns w !! conn) as [c|] eqn:Hc; [simpl|done].
  destruct (data_private c) as [pstate|]; [|by intros [= <- _]].
  destruct (Z.land flags (Z.lor UIP_CLOSE UIP_ABORT) =? 0); simpl.
  - destruct (w_devs w !! dev); [|done]. intros [= <- _].
    unfold to_uint8. apply Z.mod_pos_bound. lia.
  - exec_with ltac:(rewrite ?Hc, ?lookup_insert_eq).
    destruct (w_close w !! pstate) as [[? []]|]; try done.
    by intros [= <- _].
Qed.

(** X2.  The value returned for a non-terminal event, bit by bit: all
    bits of UIP_CLOSE are set; a bit outside UIP_CLOSE is the bit of the
    flags given, cleared if it is a bit of UIP_NEWDATA; no bit above the
    eighth is set. *)
Theorem X2_non_terminal_result_bits dev conn flags w c pstate d :
  w_conns w !! conn = Some c ->
  data_private c = Some pstate ->
  w_devs w !! dev = Some d ->
  terminal flags = false ->
  0 <= UIP_CLOSE < 256 ->
  exists r w',
    netclose_interrupt dev conn flags w = Done r w' /\
    Z.land r UIP_CLOSE = UIP_CLOSE /\
    (forall i, 0 <= i < 8 -> Z.testbit UIP_CLOSE i = false ->
       Z.testbit r i = Z.testbit flags i && negb (Z.testbit UIP_NEWDATA i)) /\
    (forall i, 8 <= i -> Z.testbit r i = false).
Proof.
  intros Hc Hp Hd Hfl Hclose. eexists _, _.
  split; [by apply (netclose_interrupt_non_terminal dev conn flags w c pstate d)|].
  unfold to_uint8. change 256 with (2 ^ 8). split; [|split].
  - apply Z.bits_inj'. intros i Hi. rewrite Z.land_spec.
    destruct (Z.lt_ge_cases i 8) as [Hlt|Hge].
    + rewrite Z.mod_pow2_bits_low, Z.lor_spec by lia.
      by destruct (Z.testbit UIP_CLOSE i); rewrite ?orb_true_r, ?andb_false_r.
    + rewrite Z.mod_pow2_bits_high by lia.
      by rewrite (uint8_testbit_high UIP_CLOSE i).
  - intros i Hi Hbit.
    rewrite Z.mod_pow2_bits_low, Z.lor_spec, Z.land_spec, Z.lnot_spec, Hbit by lia.
    by rewrite orb_false_r.
  - intros i Hi. apply Z.mod_pow2_bits_high. lia.
Qed.

Lemma sem_count_alter p q n w m :
  is_Some (sem_count p w) ->
  w_close m = alter (set_cl_sem (Some n)) q (w_close w) ->
  is_Some (sem_count p m).
Proof.
  intros Hp Hm. unfold sem_count in *. rewrite Hm.
  destruct (decide (q = p)) as [->|Hne].
  - rewrite lookup_alter_eq. by destruct (w_close w !! p).
  - by rewrite lookup_alter_ne.
Qed.

(** X3.  When every attached wait context is live, [netclose_interrupt]
    on a mapped connection record and a mapped device returns (it
    dereferences no dead pointer and does not sleep), and every attached
    wait context is still live afterwards. *)
Theorem X3_notifier_is_safe_and_keeps_contexts_live dev conn flags w c d :
  contexts_live w ->
  w_conns w !! conn = Some c ->
  w_devs w !! dev = Some d ->
  exists r w',
    netclose_interrupt dev conn flags w = Done r w' /\
    contexts_live w'.
Proof.
  intros Hlive Hc Hd.
  destruct (data_private c) as [pstate|] eqn:Hp.
  - destruct (terminal flags) eqn:Hfl.
    + destruct (Hlive conn c pstate Hc Hp) as [n Hn].
      eexists _, _.
      split; [by apply (netclose_interrupt_terminal dev conn flags w c pstate n)|].
      intros q c' p' Hq Hp'. simpl in Hq.
      destruct (decide (q = conn)) as [->|Hne].
      * rewrite lookup_insert_eq in Hq. by injection Hq as <-.
      * rewrite lookup_insert_ne in Hq by done.
        eapply sem_count_alter; [by eapply Hlive|done].
    + eexists _, _.
      split; [by apply (netclose_interrupt_non_terminal dev conn flags w c pstate d)|].
      intros q c' p' Hq Hp'. by apply (Hlive q c' p').
  - eexists _, _.
    split; [by apply (netclose_interrupt_no_context dev conn flags w c)|done].
Qed.


Lemma netclose_interrupts_detached dev conn fl w c :
  w_conns w !! conn = Some c ->
  data_private c = None ->
  netclose_interrupts dev conn fl w = Done fl w.
Proof.
  intros Hc Hp. induction fl as [|flags fl IH]; [done|].
  cbn [netclose_interrupts]. unfold bind.
  rewrite (netclose_interrupt_no_context dev conn flags w c Hc Hp). simpl.
  unfold bind in IH. by rewrite IH.
Qed.

(** X5.  Exactly one signal, whatever the stream of events.  Invoke
    [netclose_interrupt] on a connection with a live wait context once for
    each flags value of any list: if the list has a value with UIP_CLOSE
    or UIP_ABORT, the semaphore is posted once (one [sem_post] call, count
    up by one) and the record is left detached; if it has none, the
    semaphore is not posted and the record is left as it was. *)
Theorem X5_one_signal_for_any_event_stream dev conn fl w c pstate n d :
  w_conns w !! conn = Some c ->
  data_private c = Some pstate ->
  sem_count pstate w = Some n ->
  w_devs w !! dev = Some d ->
  exists rs w',
    netclose_interrupts dev conn fl w = Done rs w' /\
    sem_count pstate w' = Some (if existsb terminal fl then n + 1 else n) /\
    w_trace w' = w_trace w ++ (if existsb terminal fl then [E_sem_post pstate] else []) /\
    w_conns w' !! conn =
      Some (if existsb terminal fl then mk_conn (ripaddr c) 0 None None else c).
Proof.
  intros Hc Hp Hn. revert w d Hc Hn.
  induction fl as [|flags fl IH]; intros w d Hc Hn Hd.
  - exists [], w. simpl. by rewrite app_nil_r.
  - cbn [netclose_interrupts existsb]. unfold bind.
    destruct (terminal flags) eqn:Hfl.
    + rewrite (netclose_interrupt_terminal dev conn flags w c pstate n Hc Hp Hn Hfl).
      simpl.
      pose proof (netclose_interrupts_detached dev conn fl) as Hrest.
      unfold bind in Hrest.
      erewrite Hrest; [|simpl; apply lookup_insert_eq|done].
      simpl. eexists _, _. split; [reflexivity|]. simpl.
      split; [|split; [done | apply lookup_insert_eq]].
      apply sem_count_Some in Hn as (s & Hs & Hn).
      unfold sem_count. simpl. by rewrite lookup_alter_eq, Hs.
    + rewrite (netclose_interrupt_non_terminal dev conn flags w c pstate d Hc Hp Hd Hfl).
      simpl.
      destruct (IH (set_devs (<[dev := mk_dev 0]> (w_devs w)) w) (mk_dev 0))
        as (rs & w' & Hrun & Hcount & Htrace & Hrec);
        [done | done | simpl; apply lookup_insert_eq |].
      unfold bind in Hrun. rewrite Hrun. simpl.
      eexists _, _. split; [reflexivity|]. done.
Qed.


(** ** Further properties of the coordinator and of [net_close] *)

(** X4.  The coordinator keeps every attached wait context live.  If it
    is so when [netclose_disconnect] starts on a connected socket, it is
    so in the world in which the task sleeps, the new context included;
    and if it is so when the task is woken, and the record of the socket
    is the only one that refers to the context, it is so when the function
    returns, although the context is gone by then. *)
Theorem X4_coordinator_keeps_contexts_live psock w s c :
  w_sockets w !! psock = Some s ->
  _SS_ISCONNECTED (s_flags s) = true ->
  w_conns w !! s_conn s = Some c ->
  contexts_live w ->
  exists state w1 k,
    netclose_disconnect psock w = Blocked state w1 k /\
    contexts_live w1 /\
    forall w2 c2 n,
      w_conns w2 !! s_conn s = Some c2 ->
      sem_count state w2 = Some n ->
      0 < n ->
      contexts_live w2 ->
      (forall q c', q <> s_conn s -> w_conns w2 !! q = Some c' ->
         data_private c' <> Some state) ->
      exists w3,
        wake (netclose_disconnect psock w) w2 = Done tt w3 /\
        contexts_live w3.
Proof.
  intros Hs Hconn Hc Hlive.
  destruct (netclose_disconnect_connected psock w s c Hs Hconn Hc) as (k & Hrun & _).
  eexists _, _, k. split; [exact Hrun|]. split.
  - intros q c' p Hq Hp. simpl in Hq. unfold sem_count. simpl.
    destruct (decide (p = fresh (dom (w_close w)))) as [->|Hne].
    + by rewrite lookup_insert_eq.
    + rewrite lookup_insert_ne by done.
      destruct (decide (q = s_conn s)) as [->|Hq'].
      * rewrite lookup_insert_eq in Hq. injection Hq as <-. simpl in Hp. congruence.
      * rewrite lookup_insert_ne in Hq by done. by apply (Hlive q c' p).
  - intros w2 c2 n Hc2 Hn Hpos Hlive2 Hsole. eexists. split.
    + by apply (netclose_disconnect_woken psock w s c w2 c2 n).
    + intros q c' p Hq Hp. simpl in Hq. unfold sem_count. simpl.
      destruct (decide (q = s_conn s)) as [->|Hq'].
      * rewrite lookup_insert_eq in Hq. by injection Hq as <-.
      * rewrite lookup_insert_ne in Hq by done.
        rewrite lookup_delete_ne by (intros <-; by apply (Hsole q c')).
        by apply (Hlive2 q c' p).
Qed.

Lemma net_close_connected sockfd w s c :
  w_sockets w !! sockfd = Some s ->
  0 < s_crefs s ->
  s_type s = SOCK_STREAM ->
  CONFIG_NET_TCP = true ->
  _SS_ISCONNECTED (s_flags s) = true ->
  w_conns w !! s_conn s = Some c ->
  let state := fresh (dom (w_close w)) in
  exists k,
    net_close sockfd w =
    Blocked state
      {| w_irq := true; w_sockets := w_sockets w;
         w_conns := <[s_conn s := mk_conn (ripaddr c) full_event_set (Some state)
                                    (Some netclose_interrupt_handler)]> (w_conns w);
         w_devs := w_devs w;
         w_close := <[state := mk_close (Some sockfd) (Some 0)]> (w_close w);
         w_errno := w_errno w;
         w_trace := w_trace w ++ [E_uip_unlisten (s_conn s); E_irqsave;
                                  E_sem_init state 0; E_netdev_txnotify (ripaddr c);
                                  E_sem_wait state] |} k /\
    forall w2 c2 s2,
      w_conns w2 !! s_conn s = Some c2 ->
      w_close w2 !! state = Some s2 ->
      k w2 =
      Done OK
        {| w_irq := w_irq w; w_sockets := w_sockets w2;
           w_conns := <[s_conn s := mk_conn (ripaddr c2) 0 None None]> (w_conns w2);
           w_devs := w_devs w2;
           w_close := delete state (w_close w2);
           w_errno := w_errno w2;
           w_trace := w_trace w2 ++ [E_sem_destroy state; E_irqrestore (w_irq w);
                                     E_uip_tcpfree (s_conn s);
                                     E_sockfd_release sockfd] |}.
Proof.
  intros Hs Hrefs Htype Htcp Hconn Hc state. subst state.
  pose proof (net_close_stream sockfd w s Hs Hrefs Htcp Htype) as Hnc.
  unfold bind at 1, extern at 1 in Hnc.
  set (w0 := log (E_uip_unlisten (s_conn s)) w) in Hnc.
  assert (Hs0 : w_sockets w0 !! sockfd = Some s) by done.
  assert (Hc0 : w_conns w0 !! s_conn s = Some c) by done.
  simpl in Hnc. unfold bind at 1 in Hnc.
  destruct (netclose_disconnect_connected sockfd w0 s c Hs0 Hconn Hc0)
    as (k & Hrun & Hk).
  rewrite Hrun in Hnc. simpl in Hnc. rewrite Hnc.
  eexists. split.
  - f_equal. simpl. by rewrite <- app_assoc.
  - intros w2 c2 s2 Hc2 Hs2. simpl. rewrite (Hk w2 c2 s2 Hc2 Hs2).
    unfold_ops. world_simpl. by rewrite <- !app_assoc.
Qed.

Lemma run_not_blocked {A} evs (r : result A) :
  (forall sem w k, r <> Blocked sem w k) -> run evs r = r.
Proof.
  intros Hr. destruct evs as [|[[dev conn] flags] evs]; [done|].
  simpl. destruct r; try done. by destruct (Hr sem w k).
Qed.

Lemma run_app {A} evs1 evs2 (r : result A) :
  run (evs1 ++ evs2) r = run evs2 (run evs1 r).
Proof.
  revert r. induction evs1 as [|[[dev conn] flags] evs1 IH]; intros r; [done|].
  simpl. destruct r as [a w| |sem w k].
  - by rewrite run_not_blocked.
  - by rewrite run_not_blocked.
  - destruct (uip_event dev conn flags w); [apply IH|by rewrite run_not_blocked].
Qed.

Lemma run_non_terminal {A} dev conn fl state w (k : world -> result A) c d :
  w_conns w !! conn = Some c ->
  data_private c = Some state ->
  data_event c = Some netclose_interrupt_handler ->
  sem_count state w = Some 0 ->
  w_devs w !! dev = Some d ->
  Forall (fun flags => terminal flags = false) fl ->
  run (events_for dev conn fl) (Blocked state w k) =
  Blocked state
    match fl with
    | [] => w
    | _ => set_devs (<[dev := mk_dev 0]> (w_devs w)) w
    end k.
Proof.
  intros Hc Hp He. revert w d Hc.
  induction fl as [|flags fl IH]; intros w d Hc Hn Hd Hfl; [done|].
  apply Forall_cons in Hfl as [Hflags Hfl].
  cbn [events_for map run]. unfold uip_event. rewrite Hc, He.
  rewrite (netclose_interrupt_non_terminal dev conn flags w c state d Hc Hp Hd Hflags).
  unfold wake.
  change (sem_count state (set_devs _ w)) with (sem_count state w). rewrite Hn. simpl.
  fold (events_for dev conn fl).
  rewrite (IH (set_devs (<[dev := mk_dev 0]> (w_devs w)) w) (mk_dev 0));
    [|done|done|simpl; apply lookup_insert_eq|done].
  f_equal. destruct fl; [done|].
  unfold set_devs. simpl. by rewrite insert_insert_eq.
Qed.

(** X6.  Only a terminal event ends the wait.  However many events
    without UIP_CLOSE and without UIP_ABORT the engine delivers for the
    connection while [net_close] sleeps, the task stays asleep: the
    semaphore is not posted, the record stays armed, and [uip_tcpfree] and
    [sockfd_release] have not been called. *)
Theorem X6_non_terminal_events_keep_the_close_pending sockfd w s c dev d fl :
  w_sockets w !! sockfd = Some s ->
  0 < s_crefs s ->
  s_type s = SOCK_STREAM ->
  CONFIG_NET_TCP = true ->
  _SS_ISCONNECTED (s_flags s) = true ->
  w_conns w !! s_conn s = Some c ->
  w_devs w !! dev = Some d ->
  Forall (fun flags => terminal flags = false) fl ->
  let state := fresh (dom (w_close w)) in
  exists w' k,
    run (events_for dev (s_conn s) fl) (net_close sockfd w) = Blocked state w' k /\
    sem_count state w' = Some 0 /\
    w_conns w' !! s_conn s =
      Some (mk_conn (ripaddr c) (Z.lor (Z.lor UIP_NEWDATA UIP_CLOSE) UIP_ABORT)
              (Some state) (Some netclose_interrupt_handler)) /\
    w_trace w' = w_trace w ++ [E_uip_unlisten (s_conn s); E_irqsave;
                               E_sem_init state 0; E_netdev_txnotify (ripaddr c);
                               E_sem_wait state].
Proof.
  intros Hs Hrefs Htype Htcp Hconn Hc Hd Hfl state. subst state.
  destruct (net_close_connected sockfd w s c Hs Hrefs Htype Htcp Hconn Hc)
    as (k & -> & _).
  erewrite run_non_terminal;
    [|simpl; apply lookup_insert_eq|done|done
     |unfold sem_count; simpl; by rewrite lookup_insert_eq|exact Hd|exact Hfl].
  eexists _, k. split; [reflexivity|].
  destruct fl; simpl; unfold sem_count; simpl;
    by rewrite !lookup_insert_eq.
Qed.

(** X7.  The close completes on the first terminal event.  Let the
    engine deliver, while [net_close] sleeps on a connected stream socket,
    any number of events without UIP_CLOSE and UIP_ABORT, then one with
    either, then anything.  [net_close] returns OK; the record has
    [data_flags] zero, [data_private] and [data_event] NULL and its
    [ripaddr] untouched; the other records, the live frames, the interrupt
    mask and errno are as before the call; [d_len] of the device is zero
    if an event came before the terminal one; the calls are, in order,
    [uip_unlisten], [irqsave], [sem_init], [netdev_txnotify], [sem_wait],
    one [sem_post], [sem_destroy], [irqrestore], [uip_tcpfree],
    [sockfd_release]. *)
Theorem X7_close_completes_on_first_terminal_event sockfd w s c dev d pre t post :
  w_sockets w !! sockfd = Some s ->
  0 < s_crefs s ->
  s_type s = SOCK_STREAM ->
  CONFIG_NET_TCP = true ->
  _SS_ISCONNECTED (s_flags s) = true ->
  w_conns w !! s_conn s = Some c ->
  w_devs w !! dev = Some d ->
  Forall (fun flags => terminal flags = false) pre ->
  terminal t = true ->
  let state := fresh (dom (w_close w)) in
  run (events_for dev (s_conn s) (pre ++ t :: post)) (net_close sockfd w) =
  Done OK
    {| w_irq := w_irq w; w_sockets := w_sockets w;
       w_conns := <[s_conn s := mk_conn (ripaddr c) 0 None None]> (w_conns w);
       w_devs := match pre with
                 | [] => w_devs w
                 | _ => <[dev := mk_dev 0]> (w_devs w)
                 end;
       w_close := w_close w;
       w_errno := w_errno w;
       w_trace := w_trace w ++ [E_uip_unlisten (s_conn s); E_irqsave;
                                E_sem_init state 0; E_netdev_txnotify (ripaddr c);
                                E_sem_wait state; E_sem_post state;
                                E_sem_destroy state; E_irqrestore (w_irq w);
                                E_uip_tcpfree (s_conn s); E_sockfd_release sockfd] |}.
Proof.
  intros Hs Hrefs Htype Htcp Hconn Hc Hd Hpre Ht state. subst state.
  destruct (net_close_connected sockfd w s c Hs Hrefs Htype Htcp Hconn Hc)
    as (k & -> & Hk).
  unfold events_for. rewrite map_app, run_app. fold (events_for dev (s_conn s) pre).
  erewrite run_non_terminal;
    [|simpl; apply lookup_insert_eq|done|done
     |unfold sem_count; simpl; by rewrite lookup_insert_eq|exact Hd|exact Hpre].
  set (state := fresh (dom (w_close w))).
  set (armed := mk_conn (ripaddr c) full_event_set (Some state)
                  (Some netclose_interrupt_handler)).
  cbn [map run].
  assert (Hfresh : w_close w !! state = None) by apply fresh_frame_unmapped.
  destruct pre as [|f pre];
    unfold uip_event; simpl; rewrite lookup_insert_eq; simpl;
    (erewrite (netclose_interrupt_terminal dev (s_conn s) t _ armed state 0);
       [|simpl; apply lookup_insert_eq|done
        |unfold sem_count; simpl; by rewrite lookup_insert_eq|exact Ht]);
    unfold wake, sem_count; simpl; rewrite lookup_alter_eq, lookup_insert_eq; simpl;
    (erewrite Hk;
       [|simpl; apply lookup_insert_eq
        |unfold sem_set; simpl; by rewrite !lookup_alter_eq, lookup_insert_eq]);
    rewrite run_not_blocked by done; f_equal; unfold sem_set; simpl;
    rewrite !insert_insert_eq, !delete_alter_eq, delete_insert_id by done;
    by rewrite <- !app_assoc.
Qed.


Lemma netclose_disconnect_dangling psock w s :
  w_sockets w !! psock = Some s ->
  _SS_ISCONNECTED (s_flags s) = true ->
  w_conns w !! s_conn s = None ->
  netclose_disconnect psock w = Fault.
Proof.
  intros Hs Hconn Hc. unfold netclose_disconnect. unfold_ops.
  by exec_with ltac:(rewrite ?Hs, ?Hconn, ?Hc, ?lookup_insert_eq).
Qed.

(** X8.  A [net_close] that returns without having slept has written no
    connection record, no device and no frame, and has left the interrupt
    mask as it was.  It returns either OK, with errno untouched and
    [sockfd_release] as its last call, or ERROR, with errno EBADF and no
    call at all. *)
Theorem X8_close_that_does_not_sleep sockfd w r w' :
  net_close sockfd w = Done r w' ->
  w_conns w' = w_conns w /\ w_devs w' = w_devs w /\ w_close w' = w_close w /\
  w_sockets w' = w_sockets w /\ w_irq w' = w_irq w /\
  ((r = OK /\ w_errno w' = w_errno w /\
    exists evs, w_trace w' = w_trace w ++ evs ++ [E_sockfd_release sockfd]) \/
   (r = ERROR /\ w_errno w' = EBADF /\ w_trace w' = w_trace w)).
Proof.
  unfold net_close, sockfd_socket. unfold bind at 1. simpl.
  destruct (w_sockets w !! sockfd) as [s|] eqn:Hs;
    [|intros [= <- <-]; repeat split; right; done].
  unfold bind at 1, load_socket. rewrite Hs. simpl.
  destruct (s_crefs s <=? 0); [intros [= <- <-]; repeat split; right; done|].
  destruct (CONFIG_NET_TCP && (s_type s =? SOCK_STREAM)).
  - unfold bind at 1, extern at 1. unfold bind at 1.
    set (w0 := log (E_uip_unlisten (s_conn s)) w).
    assert (Hs0 : w_sockets w0 !! sockfd = Some s) by done.
    cbn [bind_result]. destruct (_SS_ISCONNECTED (s_flags s)) eqn:Hconn.
    + destruct (w_conns w !! s_conn s) as [c|] eqn:Hc.
      * assert (Hc0 : w_conns w0 !! s_conn s = Some c) by done.
        by destruct (netclose_disconnect_connected sockfd w0 s c Hs0 Hconn Hc0)
          as (k & -> & _).
      * by rewrite (netclose_disconnect_dangling sockfd w0 s Hs0 Hconn Hc).
    + rewrite (netclose_disconnect_not_connected sockfd w0 s Hs0 Hconn).
      unfold_ops. world_simpl. intros [= <- <-]. simpl.
      repeat split. left. repeat split.
      exists [E_uip_unlisten (s_conn s); E_irqsave; E_irqrestore (w_irq w);
              E_uip_tcpfree (s_conn s)].
      by rewrite <- !app_assoc.
  - destruct (CONFIG_NET_UDP && (s_type s =? SOCK_DGRAM)).
    + unfold_ops. world_simpl. intros [= <- <-]. simpl.
      repeat split. left. repeat split.
      exists [E_uip_udpfree (s_conn s)]. by rewrite <- !app_assoc.
    + intros [= <- <-]; repeat split; right; done.
Qed.

(** X9.  A socket type whose protocol is configured out is rejected: with
    CONFIG_NET_TCP off a SOCK_STREAM socket, and with CONFIG_NET_UDP off a
    SOCK_DGRAM socket, gets ERROR and errno EBADF like a socket of unknown
    type, and none of the free functions is called. *)
Theorem X9_type_configured_out_is_rejected sockfd w s :
  w_sockets w !! sockfd = Some s ->
  SOCK_STREAM <> SOCK_DGRAM ->
  (s_type s = SOCK_STREAM /\ CONFIG_NET_TCP = false) \/
  (s_type s = SOCK_DGRAM /\ CONFIG_NET_UDP = false) ->
  net_close sockfd w =
  Done ERROR
    {| w_irq := w_irq w; w_sockets := w_sockets w; w_conns := w_conns w;
       w_devs := w_devs w; w_close := w_close w; w_errno := EBADF;
       w_trace := w_trace w |}.
Proof.
  intros Hs Hne Hout. unfold net_close, sockfd_socket. unfold bind at 1. simpl.
  rewrite Hs. unfold bind, load_socket. rewrite Hs. simpl.
  destruct (s_crefs s <=? 0); [done|].
  destruct Hout as [[-> ->]|[-> ->]]; simpl.
  - replace (SOCK_STREAM =? SOCK_DGRAM) with false
      by (symmetry; by apply Z.eqb_neq).
    by rewrite andb_false_r.
  - replace (SOCK_DGRAM =? SOCK_STREAM) with false
      by (symmetry; apply Z.eqb_neq; congruence).
    by rewrite andb_false_r.
Qed.

(** X10.  No use of the context after the return.  However the sleeping
    [netclose_disconnect] is woken (by the notifier or by any other post
    of the semaphore), when it has returned the frame of the wait context
    is gone and no later invocation of [netclose_interrupt] on the record,
    with any device and any flags, reads or posts it: each returns its
    flags and changes nothing. *)
Theorem X10_no_use_of_the_context_after_return psock w s c w2 c2 n :
  w_sockets w !! psock = Some s ->
  _SS_ISCONNECTED (s_flags s) = true ->
  w_conns w !! s_conn s = Some c ->
  w_conns w2 !! s_conn s = Some c2 ->
  sem_count (fresh (dom (w_close w))) w2 = Some n ->
  0 < n ->
  exists w3,
    wake (netclose_disconnect psock w) w2 = Done tt w3 /\
    w_close w3 !! fresh (dom (w_close w)) = None /\
    forall dev flags, netclose_interrupt dev (s_conn s) flags w3 = Done flags w3.
Proof.
  intros Hs Hconn Hc Hc2 Hn Hpos. eexists. split; [|split].
  - by apply (netclose_disconnect_woken psock w s c w2 c2 n).
  - simpl. apply lookup_delete_eq.
  - intros dev flags. eapply netclose_interrupt_no_context.
    + simpl. apply lookup_insert_eq.
    + done.
Qed.

End NetClose.

(** ** The sample configuration at work *)

Abbreviation sample_netclose_interrupt :=
  (netclose_interrupt Sample.UIP_NEWDATA Sample.UIP_CLOSE Sample.UIP_ABORT).
Abbreviation sample_netclose_disconnect :=
  (netclose_disconnect Sample.UIP_NEWDATA Sample.UIP_CLOSE Sample.UIP_ABORT
     Sample._SS_ISCONNECTED).
Abbreviation sample_net_close :=
  (net_close Sample.UIP_NEWDATA Sample.UIP_CLOSE Sample.UIP_ABORT
     Sample.SOCK_STREAM Sample.SOCK_DGRAM Sample.EBADF Sample._SS_ISCONNECTED
     true true).
Abbreviation sample_run :=
  (run Sample.UIP_NEWDATA Sample.UIP_CLOSE Sample.UIP_ABORT).

(** The coordinator, run on the connected descriptor 3 of [idle], sleeps in
    [pending]; a remote close delivered there leaves [posted]. *)
Example disconnect_leaves_pending :
  exists k, sample_netclose_disconnect 3 Sample.idle = Blocked 1%positive Sample.pending k.
Proof. eexists. vm_compute. reflexivity. Qed.

Example remote_close_leaves_posted :
  uip_event Sample.UIP_NEWDATA Sample.UIP_CLOSE Sample.UIP_ABORT
    1%positive 7%positive Sample.UIP_CLOSE Sample.pending = Some Sample.posted.
Proof. vm_compute. reflexivity. Qed.

(** Scenario: the peer sends data, then closes.  The data is dropped and a
    close requested, the close posts the semaphore, [net_close] returns OK. *)
Example scenario_data_then_close :
  exists w,
    sample_run [(1%positive, 7%positive, Sample.UIP_NEWDATA);
                (1%positive, 7%positive, Sample.UIP_CLOSE)]
      (sample_net_close 3 Sample.idle) = Done OK w /\
    w_trace w = [E_uip_unlisten 7; E_irqsave; E_sem_init 1 0; E_netdev_txnotify 99;
                 E_sem_wait 1; E_sem_post 1; E_sem_destroy 1; E_irqrestore false;
                 E_uip_tcpfree 7; E_sockfd_release 3] /\
    w_conns w !! 7%positive = Some (mk_conn 99 0 None None) /\
    w_devs w !! 1%positive = Some (mk_dev 0) /\
    w_close w = ∅.
Proof. eexists. split; [vm_compute; reflexivity|]. by vm_compute. Qed.

(** Scenario: the peer aborts at once. *)
Example scenario_abort :
  exists w,
    sample_run [(1%positive, 7%positive, Sample.UIP_ABORT)]
      (sample_net_close 3 Sample.idle) = Done OK w /\
    w_conns w !! 7%positive = Some (mk_conn 99 0 None None) /\
    w_devs w !! 1%positive = Some (mk_dev 40).
Proof. eexists. split; [vm_compute; reflexivity|]. by vm_compute. Qed.

(** Scenario: data alone does not wake the task. *)
Example scenario_data_only_keeps_sleeping :
  exists w k,
    sample_run [(1%positive, 7%positive, Sample.UIP_NEWDATA)]
      (sample_net_close 3 Sample.idle) = Blocked 1%positive w k /\
    sem_count 1%positive w = Some 0.
Proof. eexists _, _. split; [vm_compute; reflexivity|]. by vm_compute. Qed.

(** ** Instances of the theorems in the sample configuration *)



Lemma C2_witness :
  sample_netclose_interrupt 1%positive 7%positive 255 Sample.idle = Done 255 Sample.idle.
Proof.
  apply (C2_no_context_is_noop Sample.UIP_NEWDATA Sample.UIP_CLOSE Sample.UIP_ABORT
           1%positive 7%positive 255 Sample.idle (mk_conn 99 0 None None));
    reflexivity.
Defined.

Lemma C3_witness :
  sample_netclose_interrupt 1%positive 7%positive Sample.UIP_CLOSE Sample.pending =
    Done Sample.UIP_CLOSE Sample.posted /\
  sem_count 1%positive Sample.posted = Some 1.
Proof.
  destruct (C3_terminal_event_detaches_and_posts_once
              Sample.UIP_NEWDATA Sample.UIP_CLOSE Sample.UIP_ABORT
              1%positive 7%positive Sample.UIP_CLOSE Sample.pending
              (mk_conn 99 50 (Some 1%positive) (Some netclose_interrupt_handler))
              1%positive 0)
    as (Hrun & Hcount & _); [reflexivity | reflexivity | reflexivity | vm_compute; lia |].
  split; [exact Hrun | exact Hcount].
Defined.

Lemma C4_witness :
  sample_netclose_interrupt 1%positive 7%positive Sample.UIP_NEWDATA Sample.pending =
    Done Sample.UIP_CLOSE
      {| w_irq := w_irq Sample.pending; w_sockets := w_sockets Sample.pending;
         w_conns := w_conns Sample.pending;
         w_devs := {[ 1%positive := {| d_len := 0 |} ]};
         w_close := w_close Sample.pending; w_errno := w_errno Sample.pending;
         w_trace := w_trace Sample.pending |} /\
  w_devs Sample.pending !! 1%positive = Some {| d_len := 40 |}.
Proof.
  destruct (C4_non_terminal_event_requests_close
              Sample.UIP_NEWDATA Sample.UIP_CLOSE Sample.UIP_ABORT
              1%positive 7%positive Sample.UIP_NEWDATA Sample.pending
              (mk_conn 99 50 (Some 1%positive) (Some netclose_interrupt_handler))
              1%positive (mk_dev 40))
    as (Hrun & _);
    [reflexivity | reflexivity | reflexivity | reflexivity
    | unfold Sample.UIP_NEWDATA; lia | unfold Sample.UIP_CLOSE; lia |].
  split; [exact Hrun | reflexivity].
Defined.

Lemma C5_witness :
  sample_net_close 99 Sample.idle = Done ERROR (set_errno Sample.EBADF Sample.idle) /\
  sample_net_close 6 Sample.idle = Done ERROR (set_errno Sample.EBADF Sample.idle) /\
  sample_net_close 10 Sample.idle = Done ERROR (set_errno Sample.EBADF Sample.idle).
Proof.
  split; [|split].
  - apply (C5_invalid_descriptor_fails_with_EBADF
             Sample.UIP_NEWDATA Sample.UIP_CLOSE Sample.UIP_ABORT
             Sample.SOCK_STREAM Sample.SOCK_DGRAM Sample.EBADF
             Sample._SS_ISCONNECTED true true 99 Sample.idle).
    left. reflexivity.
  - apply (C5_invalid_descriptor_fails_with_EBADF
             Sample.UIP_NEWDATA Sample.UIP_CLOSE Sample.UIP_ABORT
             Sample.SOCK_STREAM Sample.SOCK_DGRAM Sample.EBADF
             Sample._SS_ISCONNECTED true true 6 Sample.idle).
    right. exists (mk_socket 0 Sample.SOCK_STREAM 64 7%positive).
    split; [reflexivity|]. left. simpl. lia.
  - apply (C5_invalid_descriptor_fails_with_EBADF
             Sample.UIP_NEWDATA Sample.UIP_CLOSE Sample.UIP_ABORT
             Sample.SOCK_STREAM Sample.SOCK_DGRAM Sample.EBADF
             Sample._SS_ISCONNECTED true true 10 Sample.idle).
    right. exists (mk_socket 1 3 0 8%positive).
    split; [reflexivity|]. right. vm_compute. split; discriminate.
Defined.

Lemma C6_witness :
  sample_net_close 4 Sample.idle =
  Done OK (log (E_sockfd_release 4) (log (E_uip_udpfree 8) Sample.idle)).
Proof.
  apply (C6_datagram_close_frees_directly
           Sample.UIP_NEWDATA Sample.UIP_CLOSE Sample.UIP_ABORT
           Sample.SOCK_STREAM Sample.SOCK_DGRAM Sample.EBADF
           Sample._SS_ISCONNECTED true true 4 Sample.idle
           (mk_socket 1 Sample.SOCK_DGRAM 0 8%positive));
    [reflexivity | simpl; lia | reflexivity | vm_compute; discriminate | reflexivity].
Defined.

Lemma C7_witness :
  sample_netclose_disconnect 5 Sample.idle =
  Done tt (log (E_irqrestore false) (log E_irqsave Sample.idle)).
Proof.
  apply (C7_not_connected_is_noop
           Sample.UIP_NEWDATA Sample.UIP_CLOSE Sample.UIP_ABORT
           Sample._SS_ISCONNECTED 5 Sample.idle
           (mk_socket 2 Sample.SOCK_STREAM 0 9%positive));
    reflexivity.
Defined.

Lemma C8_witness :
  (exists state w1 k,
     sample_netclose_disconnect 3 Sample.idle = Blocked state w1 k /\
     w_conns w1 !! 7%positive =
       Some (mk_conn 99 50 (Some state) (Some netclose_interrupt_handler)) /\
     w_close w1 !! state = Some (mk_close (Some 3) (Some 0))) /\
  (exists w3,
     wake (sample_netclose_disconnect 3 Sample.idle) Sample.posted = Done tt w3 /\
     w_conns w3 !! 7%positive = Some (mk_conn 99 0 None None)).
Proof.
  destruct (C8_connected_arms_blocks_and_clears
              Sample.UIP_NEWDATA Sample.UIP_CLOSE Sample.UIP_ABORT
              Sample._SS_ISCONNECTED 3 Sample.idle
              (mk_socket 1 Sample.SOCK_STREAM 64 7%positive)
              (mk_conn 99 0 None None))
    as (state & w1 & k & Hrun & _ & Hctx & Hconn & _ & _ & Hwake); [reflexivity..|].
  split.
  - exists state, w1, k. split; [exact Hrun|]. split; [exact Hconn | exact Hctx].
  - destruct disconnect_leaves_pending as (k' & Hk'). rewrite Hk' in Hrun.
    injection Hrun as <- <- <-.
    destruct (Hwake Sample.posted (mk_conn 99 0 None None) 1)
      as (w3 & Hdone & Hrec & _); [reflexivity | reflexivity | lia |].
    exists w3. split; [exact Hdone | exact Hrec].
Defined.

Lemma C9_witness :
  (exists w',
     sample_net_close 5 Sample.idle = Done OK w' /\
     w_trace w' = [E_uip_unlisten 9; E_irqsave; E_irqrestore false;
                   E_uip_tcpfree 9; E_sockfd_release 5]) /\
  (exists state w1 k,
     sample_net_close 3 Sample.idle = Blocked state w1 k /\
     w_trace w1 = [E_uip_unlisten 7; E_irqsave; E_sem_init state 0;
                   E_netdev_txnotify 99; E_sem_wait state]).
Proof.
  split.
  - apply (C9_stream_close_order
             Sample.UIP_NEWDATA Sample.UIP_CLOSE Sample.UIP_ABORT
             Sample.SOCK_STREAM Sample.SOCK_DGRAM Sample.EBADF
             Sample._SS_ISCONNECTED true true 5 Sample.idle
             (mk_socket 2 Sample.SOCK_STREAM 0 9%positive)
             (mk_conn 97 0 None None));
      [reflexivity | simpl; lia | reflexivity | reflexivity | reflexivity].
  - pose proof (C9_stream_close_order
                  Sample.UIP_NEWDATA Sample.UIP_CLOSE Sample.UIP_ABORT
                  Sample.SOCK_STREAM Sample.SOCK_DGRAM Sample.EBADF
                  Sample._SS_ISCONNECTED true true 3 Sample.idle
                  (mk_socket 1 Sample.SOCK_STREAM 64 7%positive)
                  (mk_conn 99 0 None None)) as Hthm.
    destruct Hthm as (state & w1 & k & Hrun & Htrace & _);
      [reflexivity | simpl; lia | reflexivity | reflexivity | reflexivity |].
    exists state, w1, k. split; [exact Hrun | exact Htrace].
Defined.

Lemma C10_witness :
  w_devs Sample.posted = w_devs Sample.pending /\
  w_sockets Sample.posted = w_sockets Sample.pending /\
  w_errno Sample.posted = w_errno Sample.pending.
Proof.
  destruct (C10_notifier_frame
              Sample.UIP_NEWDATA Sample.UIP_CLOSE Sample.UIP_ABORT
              1%positive 7%positive Sample.UIP_CLOSE Sample.pending
              Sample.UIP_CLOSE Sample.posted)
    as (c & _ & _ & Hdevs & _ & _ & _ & _ & Hsockets & Herrno); [reflexivity|].
  split; [|split; [exact Hsockets | exact Herrno]].
  apply Hdevs. right. vm_compute. discriminate.
Defined.

(** ** Instances of the further properties *)

Example idle_contexts_live : contexts_live Sample.idle.
Proof.
  intros q c p Hq Hp. apply elem_of_list_to_map_2 in Hq.
  rewrite !elem_of_cons, elem_of_nil in Hq.
  by destruct Hq as [[= -> ->]|[[= -> ->]|[[= -> ->]|[]]]].
Qed.

Example pending_contexts_live : contexts_live Sample.pending.
Proof.
  intros q c p Hq Hp. apply elem_of_list_to_map_2 in Hq.
  rewrite !elem_of_cons, elem_of_nil in Hq.
  destruct Hq as [[= -> ->]|[[= -> ->]|[[= -> ->]|[]]]]; try done.
  injection Hp as <-. by eexists.
Qed.

Lemma X1_witness : 0 <= Sample.UIP_CLOSE < 256.
Proof.
  apply (X1_notifier_returns_uint8
           Sample.UIP_NEWDATA Sample.UIP_CLOSE Sample.UIP_ABORT
           1%positive 7%positive Sample.UIP_NEWDATA Sample.pending Sample.UIP_CLOSE
           (set_devs {[ 1%positive := mk_dev 0 ]} Sample.pending));
    [unfold Sample.UIP_NEWDATA; lia | reflexivity].
Defined.

Lemma X2_witness :
  exists r w',
    sample_netclose_interrupt 1%positive 7%positive 15 Sample.pending = Done r w' /\
    Z.land r Sample.UIP_CLOSE = Sample.UIP_CLOSE /\
    Z.testbit r 1 = false /\ Z.testbit r 0 = true.
Proof.
  destruct (X2_non_terminal_result_bits
              Sample.UIP_NEWDATA Sample.UIP_CLOSE Sample.UIP_ABORT
              1%positive 7%positive 15 Sample.pending
              (mk_conn 99 50 (Some 1%positive) (Some netclose_interrupt_handler))
              1%positive (mk_dev 40))
    as (r & w' & Hrun & Hclose & Hbits & _);
    [reflexivity | reflexivity | reflexivity | reflexivity
    | unfold Sample.UIP_CLOSE; lia |].
  exists r, w'. split; [exact Hrun|]. split; [exact Hclose|].
  split; [apply (Hbits 1) | apply (Hbits 0)]; (lia || reflexivity).
Defined.

Lemma X3_witness :
  exists r w',
    sample_netclose_interrupt 1%positive 7%positive Sample.UIP_ABORT Sample.pending =
      Done r w' /\
    contexts_live w'.
Proof.
  apply (X3_notifier_is_safe_and_keeps_contexts_live
           Sample.UIP_NEWDATA Sample.UIP_CLOSE Sample.UIP_ABORT
           1%positive 7%positive Sample.UIP_ABORT Sample.pending
           (mk_conn 99 50 (Some 1%positive) (Some netclose_interrupt_handler))
           (mk_dev 40));
    [exact pending_contexts_live | reflexivity | reflexivity].
Defined.

Lemma X4_witness :
  exists state w1 k,
    sample_netclose_disconnect 3 Sample.idle = Blocked state w1 k /\
    contexts_live w1.
Proof.
  destruct (X4_coordinator_keeps_contexts_live
              Sample.UIP_NEWDATA Sample.UIP_CLOSE Sample.UIP_ABORT
              Sample._SS_ISCONNECTED 3 Sample.idle
              (mk_socket 1 Sample.SOCK_STREAM 64 7%positive)
              (mk_conn 99 0 None None))
    as (state & w1 & k & Hrun & Hlive & _);
    [reflexivity | reflexivity | reflexivity | exact idle_contexts_live |].
  exists state, w1, k. split; [exact Hrun | exact Hlive].
Defined.

Lemma X5_witness :
  exists rs w',
    netclose_interrupts Sample.UIP_NEWDATA Sample.UIP_CLOSE Sample.UIP_ABORT
      1%positive 7%positive [2; 16; 32; 2; 16] Sample.pending = Done rs w' /\
    sem_count 1%positive w' = Some 1 /\
    w_trace w' = w_trace Sample.pending ++ [E_sem_post 1].
Proof.
  destruct (X5_one_signal_for_any_event_stream
              Sample.UIP_NEWDATA Sample.UIP_CLOSE Sample.UIP_ABORT
              1%positive 7%positive [2; 16; 32; 2; 16] Sample.pending
              (mk_conn 99 50 (Some 1%positive) (Some netclose_interrupt_handler))
              1%positive 0 (mk_dev 40))
    as (rs & w' & Hrun & Hcount & Htrace & _); [reflexivity..|].
  exists rs, w'. split; [exact Hrun|]. split; [exact Hcount | exact Htrace].
Defined.

Lemma X6_witness :
  exists w' k,
    sample_run (events_for 1%positive 7%positive [2; 8; 2])
      (sample_net_close 3 Sample.idle) = Blocked 1%positive w' k /\
    sem_count 1%positive w' = Some 0.
Proof.
  destruct (X6_non_terminal_events_keep_the_close_pending
              Sample.UIP_NEWDATA Sample.UIP_CLOSE Sample.UIP_ABORT
              Sample.SOCK_STREAM Sample.SOCK_DGRAM Sample.EBADF
              Sample._SS_ISCONNECTED true true 3 Sample.idle
              (mk_socket 1 Sample.SOCK_STREAM 64 7%positive)
              (mk_conn 99 0 None None) 1%positive (mk_dev 40) [2; 8; 2])
    as (w' & k & Hrun & Hcount & _);
    [reflexivity | simpl; lia | reflexivity | reflexivity | reflexivity
    | reflexivity | reflexivity | repeat constructor |].
  exists w', k. split; [exact Hrun | exact Hcount].
Defined.

Lemma X7_witness :
  exists w',
    sample_run (events_for 1%positive 7%positive [2; 8; 32; 2])
      (sample_net_close 3 Sample.idle) = Done OK w' /\
    w_conns w' !! 7%positive = Some (mk_conn 99 0 None None) /\
    w_close w' = w_close Sample.idle /\
    w_irq w' = w_irq Sample.idle.
Proof.
  eexists. split.
  - apply (X7_close_completes_on_first_terminal_event
             Sample.UIP_NEWDATA Sample.UIP_CLOSE Sample.UIP_ABORT
             Sample.SOCK_STREAM Sample.SOCK_DGRAM Sample.EBADF
             Sample._SS_ISCONNECTED true true 3 Sample.idle
             (mk_socket 1 Sample.SOCK_STREAM 64 7%positive)
             (mk_conn 99 0 None None) 1%positive (mk_dev 40) [2; 8] 32 [2]);
      [reflexivity | simpl; lia | reflexivity | reflexivity | reflexivity
      | reflexivity | reflexivity | repeat constructor | reflexivity].
  - split; [reflexivity | split; reflexivity].
Defined.

Lemma X8_witness :
  w_conns (log (E_sockfd_release 4) (log (E_uip_udpfree 8) Sample.idle)) =
    w_conns Sample.idle /\
  w_irq (log (E_sockfd_release 4) (log (E_uip_udpfree 8) Sample.idle)) =
    w_irq Sample.idle.
Proof.
  destruct (X8_close_that_does_not_sleep
              Sample.UIP_NEWDATA Sample.UIP_CLOSE Sample.UIP_ABORT
              Sample.SOCK_STREAM Sample.SOCK_DGRAM Sample.EBADF
              Sample._SS_ISCONNECTED true true 4 Sample.idle OK
              (log (E_sockfd_release 4) (log (E_uip_udpfree 8) Sample.idle)))
    as (Hconns & _ & _ & _ & Hirq & _); [reflexivity|].
  split; [exact Hconns | exact Hirq].
Defined.

Lemma X9_witness :
  net_close Sample.UIP_NEWDATA Sample.UIP_CLOSE Sample.UIP_ABORT
    Sample.SOCK_STREAM Sample.SOCK_DGRAM Sample.EBADF Sample._SS_ISCONNECTED
    false true 3 Sample.idle =
  Done ERROR (set_errno Sample.EBADF Sample.idle).
Proof.
  apply (X9_type_configured_out_is_rejected
           Sample.UIP_NEWDATA Sample.UIP_CLOSE Sample.UIP_ABORT
           Sample.SOCK_STREAM Sample.SOCK_DGRAM Sample.EBADF
           Sample._SS_ISCONNECTED false true 3 Sample.idle
           (mk_socket 1 Sample.SOCK_STREAM 64 7%positive));
    [reflexivity | vm_compute; discriminate | left; split; reflexivity].
Defined.

Lemma X10_witness :
  exists w3,
    wake (sample_netclose_disconnect 3 Sample.idle) Sample.posted = Done tt w3 /\
    w_close w3 !! 1%positive = None.
Proof.
  destruct (X10_no_use_of_the_context_after_return
              Sample.UIP_NEWDATA Sample.UIP_CLOSE Sample.UIP_ABORT
              Sample._SS_ISCONNECTED 3 Sample.idle
              (mk_socket 1 Sample.SOCK_STREAM 64 7%positive)
              (mk_conn 99 0 None None) Sample.posted
              (mk_conn 99 0 None None) 1)
    as (w3 & Hdone & Hgone & _);
    [reflexivity | reflexivity | reflexivity | reflexivity | reflexivity | lia |].
  exists w3. split; [exact Hdone | exact Hgone].
Defined.
